(** * PyShame front end: pipeline state, SSE event handling and result views

    A shallow embedding of the TypeScript front end of PyShame
    ([frontend/src/app/page.tsx], [frontend/src/types/security.ts],
    [components/AnalysisResults.tsx], [components/PipelineProgress.tsx],
    [components/CodeInput.tsx]) together with the properties the
    specification states about it.

    Conventions.
    - A JS string is a [string]; its characters are the code units of the
      model.  [toLowerCase] and [trim] are the ASCII restrictions of the JS
      functions.
    - A JS [number] that is only stored and displayed is a [Z] (milliseconds,
      ordinals) or a [Q] (CVSS score).
    - React state is one record, [State]; every setter call of a handler is a
      record update, in program order.
    - What a handler does to the outside world ([alert], [fetch],
      [FileReader.readAsText]) is returned as a list of [Effect]s. *)

From stdpp Require Import base list strings gmap pretty.
From Stdlib Require Import ZArith Ascii.
From Stdlib Require QArith.

Local Open Scope Z_scope.

(** ** JS string primitives *)

Module JS.

Definition is_upper (c : ascii) : bool :=
  let n := nat_of_ascii c in (65 <=? n)%nat && (n <=? 90)%nat.

Definition lower_ascii (c : ascii) : ascii :=
  if is_upper c then ascii_of_nat (nat_of_ascii c + 32) else c.

Definition is_lower (c : ascii) : bool :=
  let n := nat_of_ascii c in (97 <=? n)%nat && (n <=? 122)%nat.

Definition upper_ascii (c : ascii) : ascii :=
  if is_lower c then ascii_of_nat (nat_of_ascii c - 32) else c.

(** [s.toUpperCase()] *)
Fixpoint toUpperCase (s : string) : string :=
  match s with
  | EmptyString => EmptyString
  | String c r => String (upper_ascii c) (toUpperCase r)
  end.

(** [s.toLowerCase()] *)
Fixpoint toLowerCase (s : string) : string :=
  match s with
  | EmptyString => EmptyString
  | String c r => String (lower_ascii c) (toLowerCase r)
  end.

(** [s.slice(b, e)] for non-negative [b] and [e]. *)
Definition slice (b e : nat) (s : string) : string :=
  let n := String.length s in
  let from := Nat.min b n in
  let to := Nat.min e n in
  String.substring from (to - from) s.

(** [s.slice(b)] for non-negative [b]. *)
Definition slice_from (b : nat) (s : string) : string :=
  slice b (String.length s) s.

(** [s.startsWith(p)] *)
Definition startsWith (p s : string) : bool := String.prefix p s.

(** [s.endsWith(p)] *)
Definition endsWith (p s : string) : bool :=
  (String.length p <=? String.length s)%nat
  && String.eqb (slice_from (String.length s - String.length p) s) p.

Fixpoint trimStart (s : string) : string :=
  match s with
  | EmptyString => EmptyString
  | String c r => if Ascii.is_space c then trimStart r else s
  end.

Definition trimEnd (s : string) : string :=
  String.rev (trimStart (String.rev s)).

(** [s.trim()] *)
Definition trim (s : string) : string := trimEnd (trimStart s).

(** [s.split(sep)] for a one-character separator; never the empty list. *)
Fixpoint split (sep : ascii) (s : string) : list string :=
  match s with
  | EmptyString => [EmptyString]
  | String c r =>
      if Ascii.eqb c sep then EmptyString :: split sep r
      else match split sep r with
           | h :: t => String c h :: t
           | [] => [String c EmptyString]
           end
  end.

(** Truthiness of a string: only the empty string is falsy. *)
Definition truthy (s : string) : bool := negb (String.eqb s "").

(** [o || d] for [o : string | null | undefined]. *)
Definition or_default (o : option string) (d : string) : string :=
  match o with
  | Some s => if truthy s then s else d
  | None => d
  end.

End JS.

(** ** Data model ([types/security.ts]) *)

(** [fix] is a keyword here, hence [fix_].  [severity] is declared as
    ['critical' | 'high' | 'medium' | 'low'] but read as a plain string
    ([getSeverityStyles] has a [default] case). *)
Module SecurityIssue.
Record t := mk {
  title : string;
  description : string;
  code : string;
  fix_ : string;
  cvss_score : QArith_base.Q;
  severity : string;
  source : string;
}.
End SecurityIssue.

Module ExploitScenario.
Record t := mk {
  title : string;
  attack_vector : string;
  steps : list string;
  impact : string;
  likelihood : string;
  related_issues : list string;
}.
End ExploitScenario.

Module AnalysisResponse.
Record t := mk {
  summary : string;
  code_type : string;
  risk_areas : list string;
  issues : list SecurityIssue.t;
  exploit_scenarios : list ExploitScenario.t;
  remediation_priority : list string;
}.
End AnalysisResponse.

(** [export type AgentStatus = 'pending' | 'running' | 'complete'] *)
Inductive AgentStatus := pending | running | complete.

(** The string literal each status is at run time. *)
Definition AgentStatus_literal (a : AgentStatus) : string :=
  match a with
  | pending => "pending"
  | running => "running"
  | complete => "complete"
  end.

Module SemgrepFindingEvent.
Record t := mk {
  rule_id : string;
  message : string;
  severity : string;
  file : option string;
  line : option Z;
}.
End SemgrepFindingEvent.

Module HandoffEvent.
Record t := mk {
  from : string;
  to : string;
  summary : string;
}.
End HandoffEvent.

Module PipelineStep.
Record t := mk {
  agent : string;
  step : Z;
  status : AgentStatus;
  thoughts : list string;
  elapsedMs : option Z;
  summary : option string;
  toolActivity : list string;
  semgrepFindings : list SemgrepFindingEvent.t;
  startedAt : option Z;
}.
End PipelineStep.

(** [Partial<PipelineStep>]: every property may be absent. *)
Module PartialStep.
Record t := mk {
  agent : option string;
  step : option Z;
  status : option AgentStatus;
  thoughts : option (list string);
  elapsedMs : option (option Z);
  summary : option (option string);
  toolActivity : option (list string);
  semgrepFindings : option (list SemgrepFindingEvent.t);
  startedAt : option (option Z);
}.

(** [{ ...s, ...p }] *)
Definition spread (s : PipelineStep.t) (p : t) : PipelineStep.t :=
  {| PipelineStep.agent := default (PipelineStep.agent s) (agent p);
     PipelineStep.step := default (PipelineStep.step s) (step p);
     PipelineStep.status := default (PipelineStep.status s) (status p);
     PipelineStep.thoughts := default (PipelineStep.thoughts s) (thoughts p);
     PipelineStep.elapsedMs := default (PipelineStep.elapsedMs s) (elapsedMs p);
     PipelineStep.summary := default (PipelineStep.summary s) (summary p);
     PipelineStep.toolActivity :=
       default (PipelineStep.toolActivity s) (toolActivity p);
     PipelineStep.semgrepFindings :=
       default (PipelineStep.semgrepFindings s) (semgrepFindings p);
     PipelineStep.startedAt := default (PipelineStep.startedAt s) (startedAt p) |}.
End PartialStep.

Module StreamAgentEvent.
Record t := mk {
  agent : string;
  step : Z;
  total : Z;
}.
End StreamAgentEvent.

Module StreamAgentCompleteEvent.
Record t := mk {
  agent : string;
  step : Z;
  elapsed_ms : option Z;
}.
End StreamAgentCompleteEvent.

(** ** Server-sent events

    [handleSSEEvent(eventType, data)] switches on [eventType] and casts
    [data] to the payload type of that case; the pair is the tagged union
    below.  [unhandled t] stands for an event type [t] without a [case]. *)

Inductive SSEEvent :=
| agent_start (ev : StreamAgentEvent.t)
| agent_thought (agent text : string)
| tool_called (agent tool : string)
| semgrep_finding (finding : SemgrepFindingEvent.t)
| agent_complete (ev : StreamAgentCompleteEvent.t)
| handoff (h : HandoffEvent.t)
| analysis_complete (data : AnalysisResponse.t)
| error_event (message : option string)
| unhandled (eventType : string).

Definition eventType (e : SSEEvent) : string :=
  match e with
  | agent_start _ => "agent_start"
  | agent_thought _ _ => "agent_thought"
  | tool_called _ _ => "tool_called"
  | semgrep_finding _ => "semgrep_finding"
  | agent_complete _ => "agent_complete"
  | handoff _ => "handoff"
  | analysis_complete _ => "analysis_complete"
  | error_event _ => "error"
  | unhandled t => t
  end.

(** ** Page state ([app/page.tsx]) *)

Definition DEFAULT_AGENTS : list string :=
  [ "Triage Agent";
    "Static Analysis Agent";
    "Code Review Agent";
    "Red Team Agent";
    "Blue Team Agent";
    "Report Synthesizer" ].

Definition buildInitialSteps : list PipelineStep.t :=
  imap (fun i agent =>
    {| PipelineStep.agent := agent;
       PipelineStep.step := Z.of_nat i + 1;
       PipelineStep.status := pending;
       PipelineStep.thoughts := [];
       PipelineStep.elapsedMs := None;
       PipelineStep.summary := None;
       PipelineStep.toolActivity := [];
       PipelineStep.semgrepFindings := [];
       PipelineStep.startedAt := None |}) DEFAULT_AGENTS.

(** The [useState]/[useRef] cells of [Home].  [handoffTimerRef] holds the
    handle of the last timer armed by a [handoff] event. *)
Record State := mkState {
  codeContent : string;
  fileName : string;
  analysisResults : option AnalysisResponse.t;
  isAnalyzing : bool;
  error : option string;
  pipelineSteps : list PipelineStep.t;
  activeHandoff : option HandoffEvent.t;
  handoffTimerRef : option nat;
}.

Definition initialState : State :=
  {| codeContent := "";
     fileName := "";
     analysisResults := None;
     isAnalyzing := false;
     error := None;
     pipelineSteps := buildInitialSteps;
     activeHandoff := None;
     handoffTimerRef := None |}.

Definition setCodeContent (v : string) (st : State) : State :=
  mkState v (fileName st) (analysisResults st) (isAnalyzing st) (error st)
          (pipelineSteps st) (activeHandoff st) (handoffTimerRef st).

Definition setFileName (v : string) (st : State) : State :=
  mkState (codeContent st) v (analysisResults st) (isAnalyzing st) (error st)
          (pipelineSteps st) (activeHandoff st) (handoffTimerRef st).

Definition setAnalysisResults (v : option AnalysisResponse.t) (st : State) : State :=
  mkState (codeContent st) (fileName st) v (isAnalyzing st) (error st)
          (pipelineSteps st) (activeHandoff st) (handoffTimerRef st).

Definition setIsAnalyzing (v : bool) (st : State) : State :=
  mkState (codeContent st) (fileName st) (analysisResults st) v (error st)
          (pipelineSteps st) (activeHandoff st) (handoffTimerRef st).

Definition setError (v : option string) (st : State) : State :=
  mkState (codeContent st) (fileName st) (analysisResults st) (isAnalyzing st) v
          (pipelineSteps st) (activeHandoff st) (handoffTimerRef st).

(** [setPipelineSteps(prev => f(prev))] *)
Definition setPipelineSteps (f : list PipelineStep.t -> list PipelineStep.t)
    (st : State) : State :=
  mkState (codeContent st) (fileName st) (analysisResults st) (isAnalyzing st)
          (error st) (f (pipelineSteps st)) (activeHandoff st) (handoffTimerRef st).

Definition setActiveHandoff (v : option HandoffEvent.t) (st : State) : State :=
  mkState (codeContent st) (fileName st) (analysisResults st) (isAnalyzing st)
          (error st) (pipelineSteps st) v (handoffTimerRef st).

Definition setHandoffTimerRef (v : option nat) (st : State) : State :=
  mkState (codeContent st) (fileName st) (analysisResults st) (isAnalyzing st)
          (error st) (pipelineSteps st) (activeHandoff st) v.

(** [updateStep(agentName, updater)] *)
Definition updateStep (agentName : string)
    (updater : PipelineStep.t -> PartialStep.t) (st : State) : State :=
  setPipelineSteps
    (map (fun s =>
       if String.eqb (PipelineStep.agent s) agentName
       then PartialStep.spread s (updater s)
       else s)) st.

(** What the run time hands to a handler: the value of [Date.now()] and the
    handle [setTimeout] returns. *)
Record Env := mkEnv {
  Date_now : Z;
  setTimeout_handle : nat;
}.

(** [s.thoughts[s.thoughts.length - 1].slice(0, 80)] when there is a thought,
    otherwise [null]. *)
Definition lastThoughtSummary (thoughts : list string) : option string :=
  match last thoughts with
  | Some t => Some (JS.slice 0 80 t)
  | None => None
  end.

Definition handleSSEEvent (env : Env) (e : SSEEvent) (st : State) : State :=
  match e with
  | agent_start ev =>
      updateStep (StreamAgentEvent.agent ev) (fun _ =>
        {| PartialStep.agent := None; PartialStep.step := None;
           PartialStep.status := Some running;
           PartialStep.thoughts := None; PartialStep.elapsedMs := None;
           PartialStep.summary := None; PartialStep.toolActivity := None;
           PartialStep.semgrepFindings := None;
           PartialStep.startedAt := Some (Some (Date_now env)) |}) st
  | agent_thought agent text =>
      updateStep agent (fun s =>
        {| PartialStep.agent := None; PartialStep.step := None;
           PartialStep.status := None;
           PartialStep.thoughts := Some (PipelineStep.thoughts s ++ [text]);
           PartialStep.elapsedMs := None;
           PartialStep.summary := None; PartialStep.toolActivity := None;
           PartialStep.semgrepFindings := None;
           PartialStep.startedAt := None |}) st
  | tool_called agent tool =>
      updateStep agent (fun s =>
        {| PartialStep.agent := None; PartialStep.step := None;
           PartialStep.status := None;
           PartialStep.thoughts := None; PartialStep.elapsedMs := None;
           PartialStep.summary := None;
           PartialStep.toolActivity := Some (PipelineStep.toolActivity s ++ [tool]);
           PartialStep.semgrepFindings := None;
           PartialStep.startedAt := None |}) st
  | semgrep_finding finding =>
      updateStep "Static Analysis Agent" (fun s =>
        {| PartialStep.agent := None; PartialStep.step := None;
           PartialStep.status := None;
           PartialStep.thoughts := None; PartialStep.elapsedMs := None;
           PartialStep.summary := None; PartialStep.toolActivity := None;
           PartialStep.semgrepFindings :=
             Some (PipelineStep.semgrepFindings s ++ [finding]);
           PartialStep.startedAt := None |}) st
  | agent_complete ev =>
      updateStep (StreamAgentCompleteEvent.agent ev) (fun s =>
        {| PartialStep.agent := None; PartialStep.step := None;
           PartialStep.status := Some complete;
           PartialStep.thoughts := None;
           PartialStep.elapsedMs := Some (StreamAgentCompleteEvent.elapsed_ms ev);
           PartialStep.summary := Some (lastThoughtSummary (PipelineStep.thoughts s));
           PartialStep.toolActivity := None;
           PartialStep.semgrepFindings := None;
           PartialStep.startedAt := None |}) st
  | handoff h =>
      setHandoffTimerRef (Some (setTimeout_handle env))
        (setActiveHandoff (Some h) st)
  | analysis_complete data =>
      setAnalysisResults (Some data)
        (setPipelineSteps
           (map (fun s =>
              PartialStep.spread s
                {| PartialStep.agent := None; PartialStep.step := None;
                   PartialStep.status := Some complete;
                   PartialStep.thoughts := None; PartialStep.elapsedMs := None;
                   PartialStep.summary := None; PartialStep.toolActivity := None;
                   PartialStep.semgrepFindings := None;
                   PartialStep.startedAt := None |})) st)
  | error_event message =>
      setError (Some (JS.or_default message "Analysis failed")) st
  | unhandled _ => st
  end.

(** The callback armed by a [handoff] event, [() => setActiveHandoff(null)].
    A cleared timer never fires, so only the timer in [handoffTimerRef] can. *)
Definition handoffTimeout (h : nat) (st : State) : State :=
  if bool_decide (handoffTimerRef st = Some h)
  then setActiveHandoff None st
  else st.

(** The events of one stream, handled in arrival order. *)
Fixpoint handleSSEEvents (es : list (Env * SSEEvent)) (st : State) : State :=
  match es with
  | [] => st
  | (env, e) :: r => handleSSEEvents r (handleSSEEvent env e st)
  end.

(** ** File selection ([page.tsx], [CodeInput.tsx]) *)

Module File.
Record t := mk {
  name : string;
}.
End File.

Inductive Effect :=
| alert (msg : string)
| fetch (url : string) (code : string)
| readAsText (file : File.t).

(** [handleFileUpload(event)], with [file] the value of
    [event.target.files?.[0]].  The file is read asynchronously: the state
    changes of [reader.onload] are [reader_onload]. *)
Definition handleFileUpload (file : option File.t) (st : State)
    : State * list Effect :=
  match file with
  | Some f =>
      if JS.endsWith ".py" (File.name f)
      then (setFileName (File.name f) st, [readAsText f])
      else (st, [alert "Please select a Python (.py) file"])
  | None => (st, [alert "Please select a Python (.py) file"])
  end.

Definition reader_onload (content : string) (st : State) : State :=
  setPipelineSteps (fun _ => buildInitialSteps)
    (setError None (setAnalysisResults None (setCodeContent content st))).

Definition handleFileContentLoaded (name content : string) (st : State) : State :=
  setPipelineSteps (fun _ => buildInitialSteps)
    (setError None
       (setAnalysisResults None (setCodeContent content (setFileName name st)))).

(** [handleDrop(e)] of [CodeInput], with [file] the value of
    [e.dataTransfer.files?.[0]] and [onFileUpload] the prop of that name.
    The first component of the result is [isDragging]. *)
Definition handleDrop
    (onFileUpload : option File.t -> State -> State * list Effect)
    (file : option File.t) (st : State) : bool * (State * list Effect) :=
  match file with
  | Some f =>
      if JS.endsWith ".py" (JS.toLowerCase (File.name f))
      then (false, onFileUpload (Some f) st)
      else (false, (st, []))
  | None => (false, (st, []))
  end.

(** [Home] renders [<CodeInput onFileUpload={handleFileUpload} ... />]. *)
Definition Home_handleDrop (file : option File.t) (st : State)
    : bool * (State * list Effect) :=
  handleDrop handleFileUpload file st.

(** Whether a handler took the file, that is, started reading it. *)
Definition is_readAsText (e : Effect) : bool :=
  match e with readAsText _ => true | _ => false end.

Definition accepted (r : State * list Effect) : bool :=
  existsb is_readAsText r.2.

(** ** Running an analysis ([handleAnalyzeCode]) *)

(** A thrown value: [err instanceof Error] with its message, or anything
    else. *)
Inductive Thrown :=
| ErrorObject (message : string)
| NotAnError.

(** What [reader.read()] yields: the decoded chunks in order, then either
    [done] or a rejection. *)
Module ReadableStream.
Record t := mk {
  chunks : list string;
  failure : option Thrown;
}.
End ReadableStream.

Module Response.
Record t := mk {
  ok : bool;
  status : Z;
  body : option ReadableStream.t;
}.
End Response.

Inductive FetchResult :=
| fetch_rejected (err : Thrown)
| fetch_resolved (response : Response.t).

(** [catch (err) { setError(...) }] *)
Definition catchError (err : Thrown) (st : State) : State :=
  setError
    (Some match err with
          | ErrorObject m => m
          | NotAnError => "An error occurred during analysis"
          end) st.

Section Analyze.

(** The build-time constant [API_BASE_URL]. *)
Variable API_BASE_URL : string.

(** [JSON.parse] of a [data: ] line followed by the cast [handleSSEEvent]
    applies for the given event type; [None] when this throws. *)
Variable parseData : string -> string -> option SSEEvent.

(** The run-time environment at the n-th handled event of a stream. *)
Variable clock : nat -> Env.

(** One iteration of [for (const line of lines)]; the accumulator is the
    local [eventType], the page state and the number of events handled. *)
Definition handleLine (acc : string * State * nat) (line : string)
    : string * State * nat :=
  let '(evType, st, n) := acc in
  if JS.startsWith "event: " line then
    (JS.trim (JS.slice_from 7 line), st, n)
  else if JS.startsWith "data: " line && JS.truthy evType then
    match parseData evType (JS.slice_from 6 line) with
    | Some e => ("", handleSSEEvent (clock n) e st, S n)
    | None => ("", st, n)
    end
  else acc.

(** One iteration of [while (true)] with a chunk read; the accumulator is
    [buffer], the page state and the number of events handled. *)
Definition handleChunk (acc : string * State * nat) (chunk : string)
    : string * State * nat :=
  let '(buffer, st, n) := acc in
  let lines := JS.split "010" (buffer +:+ chunk) in
  let buffer' := default "" (last lines) in
  let '(_, st', n') := foldl handleLine ("", st, n) (removelast lines) in
  (buffer', st', n').

Definition readStream (s : ReadableStream.t) (st : State) : State :=
  let '(_, st', _) := foldl handleChunk ("", st, 0%nat) (ReadableStream.chunks s) in
  match ReadableStream.failure s with
  | Some err => catchError err st'
  | None => st'
  end.

(** [handleAnalyzeCode()], given how the request turns out.  The handler is
    taken as one step: no other handler runs while it awaits. *)
Definition handleAnalyzeCode (net : FetchResult) (st : State)
    : State * list Effect :=
  if negb (JS.truthy (codeContent st)) then
    (st, [alert "Please upload a Python file first"])
  else
    let st1 :=
      setPipelineSteps (fun _ => buildInitialSteps)
        (setAnalysisResults None (setError None (setIsAnalyzing true st))) in
    let st2 :=
      match net with
      | fetch_rejected err => catchError err st1
      | fetch_resolved response =>
          if negb (Response.ok response) then
            catchError
              (ErrorObject ("HTTP error! status: " +:+ pretty (Response.status response)))
              st1
          else
            match Response.body response with
            | None => catchError (ErrorObject "No response body") st1
            | Some s => readStream s st1
            end
      end in
    (setIsAnalyzing false st2,
     [fetch (API_BASE_URL +:+ "/api/analyze/stream") (codeContent st)]).

End Analyze.

(** [handleAnalyzeCode] up to its first [await]: the guard and, with code
    to analyse, the four setters that follow it.  The page is in this state
    while the request and the stream are under way. *)
Definition handleAnalyzeCode_begin (st : State) : State :=
  if negb (JS.truthy (codeContent st)) then st
  else
    setPipelineSteps (fun _ => buildInitialSteps)
      (setAnalysisResults None (setError None (setIsAnalyzing true st))).

(** The [catch] and [finally] blocks of [handleAnalyzeCode]: [err] is what
    the [try] block threw, if anything. *)
Definition handleAnalyzeCode_end (err : option Thrown) (st : State) : State :=
  setIsAnalyzing false
    match err with
    | Some e => catchError e st
    | None => st
    end.

Definition is_fetch (e : Effect) : bool :=
  match e with fetch _ _ => true | _ => false end.

(** ** The results panel ([AnalysisResults.tsx]) *)

Definition getSeverityStyles (severity : string) : string :=
  if String.eqb severity "critical" then "bg-red-100 text-red-800 border-red-200"
  else if String.eqb severity "high" then "bg-orange-100 text-orange-800 border-orange-200"
  else if String.eqb severity "medium" then "bg-amber-100 text-amber-800 border-amber-200"
  else if String.eqb severity "low" then "bg-emerald-100 text-emerald-800 border-emerald-200"
  else "bg-gray-100 text-gray-800 border-gray-200".

Definition getLikelihoodColor (likelihood : string) : string :=
  let l := JS.toLowerCase likelihood in
  if String.eqb l "high" then "text-red-700 bg-red-50"
  else if String.eqb l "medium" then "text-amber-700 bg-amber-50"
  else if String.eqb l "low" then "text-green-700 bg-green-50"
  else "text-gray-700 bg-gray-50".

(** [s && <element>{s}</element>] *)
Definition whenTruthy (s : string) : option string :=
  if JS.truthy s then Some s else None.

(** [l.length > 0 && <element>...</element>] *)
Definition whenNonEmpty {A B} (f : list A -> B) (l : list A) : option B :=
  match l with
  | [] => None
  | _ => Some (f l)
  end.

Module View.

Record IssueRow := mkIssueRow {
  title : string;
  severityStyles : string;
  severityLabel : string;
  cvss_score : QArith_base.Q;
  description : string;
  code : option string;
  fix_ : option string;
}.

(** The issues section: the table, or the amber note. *)
Inductive Issues :=
| table (rows : list IssueRow)
| note.

Record Scenario := mkScenario {
  scenarioTitle : string;
  likelihoodColor : string;
  likelihood : string;
  attack_vector : string;
  impact : string;
  steps : list string;
  related_issues : option (list string);
}.

Record Tags := mkTags {
  codeTypeTag : option string;
  riskAreaTags : list string;
}.

Record Results := mkResults {
  summary : string;
  tags : option Tags;
  issuesCount : nat;
  issues : Issues;
  exploitScenarios : option (list Scenario);
  remediationPriority : option (list (string * string));
}.

Record t := mk {
  errorBanner : option string;
  placeholder : option string;
  results : option Results;
}.

End View.

Definition renderIssue (issue : SecurityIssue.t) : View.IssueRow :=
  {| View.title := SecurityIssue.title issue;
     View.severityStyles := getSeverityStyles (SecurityIssue.severity issue);
     View.severityLabel := JS.toUpperCase (SecurityIssue.severity issue);
     View.cvss_score := SecurityIssue.cvss_score issue;
     View.description := SecurityIssue.description issue;
     View.code := whenTruthy (SecurityIssue.code issue);
     View.fix_ := whenTruthy (SecurityIssue.fix_ issue) |}.

Definition renderScenario (scenario : ExploitScenario.t) : View.Scenario :=
  {| View.scenarioTitle := ExploitScenario.title scenario;
     View.likelihoodColor := getLikelihoodColor (ExploitScenario.likelihood scenario);
     View.likelihood := ExploitScenario.likelihood scenario;
     View.attack_vector := ExploitScenario.attack_vector scenario;
     View.impact := ExploitScenario.impact scenario;
     View.steps := ExploitScenario.steps scenario;
     View.related_issues := whenNonEmpty id (ExploitScenario.related_issues scenario) |}.

Definition remediationClass (index : nat) : string :=
  if (index =? 0)%nat then "text-red-700 font-medium"
  else if (index <? 3)%nat then "text-amber-700"
  else "text-gray-700".

Definition renderResults (r : AnalysisResponse.t) : View.Results :=
  {| View.summary := AnalysisResponse.summary r;
     View.tags :=
       if JS.truthy (AnalysisResponse.code_type r)
          || (0 <? length (AnalysisResponse.risk_areas r))%nat
       then Some {| View.codeTypeTag :=
                      if JS.truthy (AnalysisResponse.code_type r)
                         && negb (String.eqb (AnalysisResponse.code_type r) "unknown")
                      then Some (AnalysisResponse.code_type r)
                      else None;
                    View.riskAreaTags := AnalysisResponse.risk_areas r |}
       else None;
     View.issuesCount := length (AnalysisResponse.issues r);
     View.issues :=
       if (0 <? length (AnalysisResponse.issues r))%nat
       then View.table (map renderIssue (AnalysisResponse.issues r))
       else View.note;
     View.exploitScenarios :=
       whenNonEmpty (map renderScenario) (AnalysisResponse.exploit_scenarios r);
     View.remediationPriority :=
       whenNonEmpty (imap (fun index item => (remediationClass index, item)))
         (AnalysisResponse.remediation_priority r) |}.

(** The component, as a function of its props. *)
Definition AnalysisResults (analysisResults : option AnalysisResponse.t)
    (isAnalyzing : bool) (error : option string) : View.t :=
  let errorShown := match error with Some e => JS.truthy e | None => false end in
  {| View.errorBanner := if errorShown then error else None;
     View.placeholder :=
       if negb (bool_decide (is_Some analysisResults)) && negb errorShown
       then Some (if isAnalyzing
                  then "Multi-agent pipeline running, watch the progress above..."
                  else "Upload and analyze Python code to see security assessment results here.")
       else None;
     View.results := renderResults <$> analysisResults |}.

(** [Home] renders the component from the page state. *)
Definition Home_AnalysisResults (st : State) : View.t :=
  AnalysisResults (analysisResults st) (isAnalyzing st) (error st).

(** ** Semgrep finding cards ([PipelineProgress.tsx]) *)

Definition severityColors : gmap string string :=
  list_to_map
    [ ("ERROR", "bg-red-100 text-red-700");
      ("WARNING", "bg-amber-100 text-amber-700");
      ("INFO", "bg-blue-100 text-blue-700");
      ("error", "bg-red-100 text-red-700");
      ("warning", "bg-amber-100 text-amber-700");
      ("info", "bg-blue-100 text-blue-700") ].

(** [severityColors] is an object literal, so a lookup that misses its own
    keys falls through to the members of [Object.prototype]. *)
Definition Object_prototype_members : list string :=
  [ "constructor"; "__proto__"; "hasOwnProperty"; "isPrototypeOf";
    "propertyIsEnumerable"; "toLocaleString"; "toString"; "valueOf";
    "__defineGetter__"; "__defineSetter__"; "__lookupGetter__";
    "__lookupSetter__" ].

(** The value of [colorClass]: a class string, or the (truthy) prototype
    member of the given name. *)
Inductive ColorClass :=
| classes (c : string)
| prototype_member (name : string).

Definition colorClass (finding : SemgrepFindingEvent.t) : ColorClass :=
  let severity := SemgrepFindingEvent.severity finding in
  match severityColors !! severity with
  | Some c => classes c
  | None =>
      if bool_decide (severity ∈ Object_prototype_members)
      then prototype_member severity
      else classes "bg-gray-100 text-gray-600"
  end.

Definition ruleUrl (finding : SemgrepFindingEvent.t) : option string :=
  if negb (String.eqb (SemgrepFindingEvent.rule_id finding) "unknown")
  then Some ("https://semgrep.dev/r/" +:+ SemgrepFindingEvent.rule_id finding)
  else None.

(** ** Page histories

    What can happen to the page, one handler call at a time.  A stream event
    is also an action of its own, so histories cover events that interleave
    with other handlers; so are the start of an analysis and its end, so
    histories also reach the states of a running analysis. *)

Inductive Action :=
| act_fileUpload (file : option File.t)
| act_readerOnload (content : string)
| act_fileContentLoaded (name content : string)
| act_contentChange (content : string)
| act_drop (file : option File.t)
| act_analyzeCode (url : string)
    (parseData : string -> string -> option SSEEvent)
    (clock : nat -> Env) (net : FetchResult)
| act_sseEvent (env : Env) (e : SSEEvent)
| act_handoffTimeout (h : nat)
| act_analyzeBegin
| act_analyzeEnd (err : option Thrown).

Definition perform (st : State) (a : Action) : State :=
  match a with
  | act_fileUpload file => (handleFileUpload file st).1
  | act_readerOnload content => reader_onload content st
  | act_fileContentLoaded name content => handleFileContentLoaded name content st
  | act_contentChange content => setCodeContent content st
  | act_drop file => (Home_handleDrop file st).2.1
  | act_analyzeCode url parseData clock net =>
      (handleAnalyzeCode url parseData clock net st).1
  | act_sseEvent env e => handleSSEEvent env e st
  | act_handoffTimeout h => handoffTimeout h st
  | act_analyzeBegin => handleAnalyzeCode_begin st
  | act_analyzeEnd err => handleAnalyzeCode_end err st
  end.

(** The page state after a history, starting from the first render. *)
Definition run (acts : list Action) : State := foldl perform initialState acts.

(** The stage a per-stage event names. *)
Definition stageName (e : SSEEvent) : option string :=
  match e with
  | agent_start ev => Some (StreamAgentEvent.agent ev)
  | agent_thought agent _ => Some agent
  | tool_called agent _ => Some agent
  | agent_complete ev => Some (StreamAgentCompleteEvent.agent ev)
  | _ => None
  end.

(** ** What one event does to one step *)

(** The function [handleSSEEvent] maps over the steps. *)
Definition stepUpdate (env : Env) (e : SSEEvent) (s : PipelineStep.t)
    : PipelineStep.t :=
  match e with
  | agent_start ev =>
      if String.eqb (PipelineStep.agent s) (StreamAgentEvent.agent ev)
      then PipelineStep.mk (PipelineStep.agent s) (PipelineStep.step s) running
             (PipelineStep.thoughts s) (PipelineStep.elapsedMs s)
             (PipelineStep.summary s) (PipelineStep.toolActivity s)
             (PipelineStep.semgrepFindings s) (Some (Date_now env))
      else s
  | agent_thought agent text =>
      if String.eqb (PipelineStep.agent s) agent
      then PipelineStep.mk (PipelineStep.agent s) (PipelineStep.step s)
             (PipelineStep.status s) (PipelineStep.thoughts s ++ [text])
             (PipelineStep.elapsedMs s) (PipelineStep.summary s)
             (PipelineStep.toolActivity s) (PipelineStep.semgrepFindings s)
             (PipelineStep.startedAt s)
      else s
  | tool_called agent tool =>
      if String.eqb (PipelineStep.agent s) agent
      then PipelineStep.mk (PipelineStep.agent s) (PipelineStep.step s)
             (PipelineStep.status s) (PipelineStep.thoughts s)
             (PipelineStep.elapsedMs s) (PipelineStep.summary s)
             (PipelineStep.toolActivity s ++ [tool])
             (PipelineStep.semgrepFindings s) (PipelineStep.startedAt s)
      else s
  | semgrep_finding finding =>
      if String.eqb (PipelineStep.agent s) "Static Analysis Agent"
      then PipelineStep.mk (PipelineStep.agent s) (PipelineStep.step s)
             (PipelineStep.status s) (PipelineStep.thoughts s)
             (PipelineStep.elapsedMs s) (PipelineStep.summary s)
             (PipelineStep.toolActivity s)
             (PipelineStep.semgrepFindings s ++ [finding])
             (PipelineStep.startedAt s)
      else s
  | agent_complete ev =>
      if String.eqb (PipelineStep.agent s) (StreamAgentCompleteEvent.agent ev)
      then PipelineStep.mk (PipelineStep.agent s) (PipelineStep.step s) complete
             (PipelineStep.thoughts s) (StreamAgentCompleteEvent.elapsed_ms ev)
             (lastThoughtSummary (PipelineStep.thoughts s))
             (PipelineStep.toolActivity s) (PipelineStep.semgrepFindings s)
             (PipelineStep.startedAt s)
      else s
  | analysis_complete _ =>
      PipelineStep.mk (PipelineStep.agent s) (PipelineStep.step s) complete
        (PipelineStep.thoughts s) (PipelineStep.elapsedMs s)
        (PipelineStep.summary s) (PipelineStep.toolActivity s)
        (PipelineStep.semgrepFindings s) (PipelineStep.startedAt s)
  | handoff _ | error_event _ | unhandled _ => s
  end.

(** ** Predicates on the step list *)

(** The six stages, by name and ordinal, in pipeline order. *)
Definition stagesFixed (l : list PipelineStep.t) : Prop :=
  map PipelineStep.agent l = DEFAULT_AGENTS
  /\ map PipelineStep.step l = [1; 2; 3; 4; 5; 6].

(** Only the static analysis stage holds findings. *)
Definition findingsOnlyInStaticAnalysis (l : list PipelineStep.t) : Prop :=
  stagesFixed l
  /\ Forall (fun s =>
       PipelineStep.agent s ≠ "Static Analysis Agent" ->
       PipelineStep.semgrepFindings s = []) l.

(** ** Sample inputs *)

Definition env0 : Env := mkEnv 0 0.

(** Triage starts and the back end then reports a fatal failure. *)
Definition triageFailure : State :=
  handleSSEEvents
    [ (env0, agent_start (StreamAgentEvent.mk "Triage Agent" 1 6));
      (env0, error_event (Some "Triage Agent failed")) ]
    initialState.

(** Triage has started and narrated one line; its step then; and its
    completion event. *)
Definition triageThinking : State :=
  handleSSEEvents
    [ (env0, agent_start (StreamAgentEvent.mk "Triage Agent" 1 6));
      (env0, agent_thought "Triage Agent" "Classifying the upload as a Flask app.") ]
    initialState.

Definition triageThinkingStep : PipelineStep.t :=
  PipelineStep.mk "Triage Agent" 1 running
    ["Classifying the upload as a Flask app."] None None [] [] (Some 0).

Definition triageDone : StreamAgentCompleteEvent.t :=
  StreamAgentCompleteEvent.mk "Triage Agent" 1 (Some 1200).

(** A result as the back end degrades it when the synthesizer's output
    could not be parsed. *)
Definition degradedResult : AnalysisResponse.t :=
  AnalysisResponse.mk "The upload concatenates user input into SQL." "unknown"
    [] [] [] [].

(** Every stage has started and completed, and [analysis_complete] has not
    arrived yet. *)
Definition allStagesDone : State :=
  handleSSEEvents
    [ (env0, agent_start (StreamAgentEvent.mk "Triage Agent" 1 6));
      (env0, agent_complete (StreamAgentCompleteEvent.mk "Triage Agent" 1 (Some 900)));
      (env0, agent_start (StreamAgentEvent.mk "Static Analysis Agent" 2 6));
      (env0, agent_complete
               (StreamAgentCompleteEvent.mk "Static Analysis Agent" 2 (Some 900)));
      (env0, agent_start (StreamAgentEvent.mk "Code Review Agent" 3 6));
      (env0, agent_complete (StreamAgentCompleteEvent.mk "Code Review Agent" 3 (Some 900)));
      (env0, agent_start (StreamAgentEvent.mk "Red Team Agent" 4 6));
      (env0, agent_complete (StreamAgentCompleteEvent.mk "Red Team Agent" 4 (Some 900)));
      (env0, agent_start (StreamAgentEvent.mk "Blue Team Agent" 5 6));
      (env0, agent_complete (StreamAgentCompleteEvent.mk "Blue Team Agent" 5 (Some 900)));
      (env0, agent_start (StreamAgentEvent.mk "Report Synthesizer" 6 6));
      (env0, agent_complete
               (StreamAgentCompleteEvent.mk "Report Synthesizer" 6 (Some 900))) ]
    initialState.

(** A result has arrived and a stage event follows it. *)
Definition resultThenStart : State :=
  handleSSEEvents
    [ (env0, analysis_complete degradedResult);
      (env0, agent_start (StreamAgentEvent.mk "Triage Agent" 1 6)) ]
    initialState.

(** Code is loaded, an analysis has begun and Triage hands over. *)
Definition analysisUnderWay : State :=
  run [ act_fileContentLoaded "app.py" "print(1)";
        act_analyzeBegin;
        act_sseEvent env0
          (handoff (HandoffEvent.mk "Triage Agent" "Static Analysis Agent"
                      "A Flask app with one route.")) ].

Definition findingOfSeverity (severity : string) : SemgrepFindingEvent.t :=
  SemgrepFindingEvent.mk "python.lang.security.audit.eval-detected"
    "Detected the use of eval()" severity None None.

Definition firstFinding : SemgrepFindingEvent.t :=
  SemgrepFindingEvent.mk "python.lang.security.audit.eval-detected"
    "Detected the use of eval()" "ERROR" (Some "calculator_eval.py") (Some 6).

Definition codeReviewStep : PipelineStep.t :=
  PipelineStep.mk "Code Review Agent" 3 pending [] None None [] [] None.

Definition triageStep : PipelineStep.t :=
  PipelineStep.mk "Triage Agent" 1 pending [] None None [] [] None.

(** ** Sample snippets ([data/sampleSnippets.ts]) *)

Module SampleSnippet.
Record t := mk {
  id : string;
  name : string;
  description : string;
  fileName : string;
  content : string;
}.
End SampleSnippet.

(** The double quote, which the contents below hold between their parts. *)
Definition dq : string := String "034" EmptyString.

Definition SAMPLE_SNIPPETS : list SampleSnippet.t :=
  [
    {| SampleSnippet.id := "flask-sqli";
       SampleSnippet.name := "Flask app with SQL injection";
       SampleSnippet.description := "Login form concatenates user input into SQL";
       SampleSnippet.fileName := "app_sqli.py";
       SampleSnippet.content :=
         "from flask import Flask, request
import sqlite3

app = Flask(__name__)

@app.route('/login', methods=['POST'])
def login():
    username = request.form.get('username')
    password = request.form.get('password')
    conn = sqlite3.connect('users.db')
    cursor = conn.cursor()
    # VULNERABLE: direct string concatenation
    query = "
       +:+ dq
       +:+ "SELECT * FROM users WHERE username='"
       +:+ dq
       +:+ " + username + "
       +:+ dq
       +:+ "' AND password='"
       +:+ dq
       +:+ " + password + "
       +:+ dq
       +:+ "'"
       +:+ dq
       +:+ "
    cursor.execute(query)
    user = cursor.fetchone()
    conn.close()
    if user:
        return "
       +:+ dq
       +:+ "Welcome!"
       +:+ dq
       +:+ "
    return "
       +:+ dq
       +:+ "Invalid credentials"
       +:+ dq
       +:+ ", 401

if __name__ == '__main__':
    app.run(debug=True)
" |};
    {| SampleSnippet.id := "eval-danger";
       SampleSnippet.name := "Script using eval() on user input";
       SampleSnippet.description := "Evaluates user-controlled string as Python code";
       SampleSnippet.fileName := "calculator_eval.py";
       SampleSnippet.content :=
         "#!/usr/bin/env python3
"
       +:+ dq
       +:+ dq
       +:+ dq
       +:+ "Dangerous calculator that uses eval() on user input."
       +:+ dq
       +:+ dq
       +:+ dq
       +:+ "

def calculate(expression: str) -> float:
    # VULNERABLE: eval() executes arbitrary code
    return eval(expression)

if __name__ == '__main__':
    while True:
        try:
            expr = input("
       +:+ dq
       +:+ "Enter expression (e.g. 2+2): "
       +:+ dq
       +:+ ")
            if expr.lower() in ('quit', 'exit', 'q'):
                break
            result = calculate(expr)
            print(f"
       +:+ dq
       +:+ "Result: {result}"
       +:+ dq
       +:+ ")
        except Exception as e:
            print(f"
       +:+ dq
       +:+ "Error: {e}"
       +:+ dq
       +:+ ")
" |};
    {| SampleSnippet.id := "insecure-file-handler";
       SampleSnippet.name := "Insecure file path handler";
       SampleSnippet.description := "Reads files using user-supplied path (path traversal)";
       SampleSnippet.fileName := "file_server.py";
       SampleSnippet.content :=
         "from flask import Flask, request, send_file
import os

app = Flask(__name__)
UPLOAD_DIR = '/var/app/uploads'

@app.route('/file')
def get_file():
    # VULNERABLE: no path sanitization - allows ../../../etc/passwd
    filename = request.args.get('name', '')
    filepath = os.path.join(UPLOAD_DIR, filename)
    return send_file(filepath, as_attachment=True, download_name=filename)

if __name__ == '__main__':
    app.run(host='0.0.0.0', port=5000)
" |};
    {| SampleSnippet.id := "pickle-deserialize";
       SampleSnippet.name := "Unsafe pickle deserialization";
       SampleSnippet.description := "Loads pickled data from untrusted source";
       SampleSnippet.fileName := "config_loader.py";
       SampleSnippet.content :=
         "import pickle
import os

def load_config(path: str) -> dict:
    "
       +:+ dq
       +:+ dq
       +:+ dq
       +:+ "Load config from a pickle file."
       +:+ dq
       +:+ dq
       +:+ dq
       +:+ "
    with open(path, 'rb') as f:
        # VULNERABLE: pickle allows arbitrary code execution on load
        config = pickle.load(f)
    return config

if __name__ == '__main__':
    import sys
    config = load_config(sys.argv[1])
    print(config)
" |};
    {| SampleSnippet.id := "subprocess-shell";
       SampleSnippet.name := "Subprocess with shell=True";
       SampleSnippet.description := "Runs user input in a shell command";
       SampleSnippet.fileName := "ping_tool.py";
       SampleSnippet.content :=
         "import subprocess
import sys

def ping_host(host: str) -> str:
    # VULNERABLE: shell=True + unsanitized input
    result = subprocess.run(f"
       +:+ dq
       +:+ "ping -c 3 {host}"
       +:+ dq
       +:+ ", shell=True, capture_output=True, text=True)
    return result.stdout or result.stderr

if __name__ == '__main__':
    host = sys.argv[1] if len(sys.argv) > 1 else "
       +:+ dq
       +:+ "127.0.0.1"
       +:+ dq
       +:+ "
    print(ping_host(host))
" |} ].

(** [handleLoadExample(snippet)] of [CodeInput], with the optional prop
    [onFileContentLoaded]. *)
Definition handleLoadExample
    (onFileContentLoaded : option (string -> string -> State -> State))
    (snippet : SampleSnippet.t) (st : State) : State :=
  match onFileContentLoaded with
  | Some f => f (SampleSnippet.fileName snippet) (SampleSnippet.content snippet) st
  | None => st
  end.

(** The [onChange] handler of the example menu, with [id] the value of
    [e.target.value]. *)
Definition selectExample
    (onFileContentLoaded : option (string -> string -> State -> State))
    (id : string) (st : State) : State :=
  if negb (JS.truthy id) then st
  else
    match List.find (fun s => String.eqb (SampleSnippet.id s) id) SAMPLE_SNIPPETS with
    | Some snippet => handleLoadExample onFileContentLoaded snippet st
    | None => st
    end.

(** [Home] renders [<CodeInput onFileContentLoaded={handleFileContentLoaded}
    ... />]. *)
Definition Home_selectExample (id : string) (st : State) : State :=
  selectExample (Some handleFileContentLoaded) id st.

(** ** Code statistics of the editor ([CodeInput.tsx]) *)

(** [estimateTokens(text)]: [Math.ceil(text.length / 4)], 0 for the empty
    text.  The division is by a power of two, so it is exact on lengths. *)
Definition estimateTokens (text : string) : nat :=
  if negb (JS.truthy text) then 0%nat
  else ((String.length text + 3) / 4)%nat.

(** [text.split(/\r?\n/)]: a line ends at a line feed, which takes a
    carriage return right before it along. *)
Fixpoint splitLines (s : string) : list string :=
  match s with
  | EmptyString => [EmptyString]
  | String c r =>
      let keep :=
        match splitLines r with
        | h :: t => String c h :: t
        | [] => [String c EmptyString]
        end in
      if Ascii.eqb c "010" then EmptyString :: splitLines r
      else if Ascii.eqb c "013" then
        match r with
        | String c' r' =>
            if Ascii.eqb c' "010" then EmptyString :: splitLines r' else keep
        | EmptyString => keep
        end
      else keep
  end.

(** [getLineCount(text)] *)
Definition getLineCount (text : string) : nat :=
  if negb (JS.truthy text) then 0%nat
  else length (splitLines text).

(** The number of line feeds of a text. *)
Fixpoint countLineFeeds (s : string) : nat :=
  match s with
  | EmptyString => 0%nat
  | String c r => ((if Ascii.eqb c "010" then 1 else 0) + countLineFeeds r)%nat
  end.

(** ** The pipeline panel ([PipelineProgress.tsx]) *)

(** [a === b] on statuses, which are string literals at run time. *)
Definition AgentStatus_eqb (a b : AgentStatus) : bool :=
  String.eqb (AgentStatus_literal a) (AgentStatus_literal b).

(** [SemgrepFinding]: one finding card. *)
Module FindingCard.
Record t := mk {
  color : ColorClass;
  severityText : string;
  link : option string;
  rule : string;
  messageText : option string;
  location : option string;
}.
End FindingCard.

Definition SemgrepFinding (finding : SemgrepFindingEvent.t) : FindingCard.t :=
  {| FindingCard.color := colorClass finding;
     FindingCard.severityText := SemgrepFindingEvent.severity finding;
     FindingCard.link := ruleUrl finding;
     FindingCard.rule := SemgrepFindingEvent.rule_id finding;
     FindingCard.messageText := whenTruthy (SemgrepFindingEvent.message finding);
     FindingCard.location :=
       match SemgrepFindingEvent.file finding, SemgrepFindingEvent.line finding with
       | Some f, Some l =>
           if JS.truthy f && negb (l =? 0)
           then Some (f +:+ ":" +:+ pretty l)
           else None
       | _, _ => None
       end |}.

(** [SemgrepPanel]: each field is one of the conditional blocks of the
    panel, in source order. *)
Module SemgrepPanelView.
Record t := mk {
  headerSpinner : bool;
  headerCheck : bool;
  scanningBlock : option (list (string * string));
  fallbackNotice : option string;
  findingsBlock : option (string * list FindingCard.t);
}.
End SemgrepPanelView.

Definition SemgrepPanel (toolActivity : list string)
    (findings : list SemgrepFindingEvent.t) (isAgentComplete : bool)
    : option SemgrepPanelView.t :=
  let isScanning := bool_decide ("semgrep_scan" ∈ toolActivity) in
  let noFindings := (length findings =? 0)%nat in
  if negb isScanning && noFindings then None
  else
    let categories := ["security"; "correctness"; "performance"] in
    let stillScanning := isScanning && noFindings && negb isAgentComplete in
    Some
      {| SemgrepPanelView.headerSpinner := stillScanning;
         SemgrepPanelView.headerCheck := isAgentComplete && noFindings && isScanning;
         SemgrepPanelView.scanningBlock :=
           if stillScanning
           then Some (imap (fun i cat => (cat, pretty (i * 200)%nat +:+ "ms")) categories)
           else None;
         SemgrepPanelView.fallbackNotice :=
           if isAgentComplete && noFindings && isScanning
           then Some "Semgrep scan attempted -- agent fell back to manual analysis"
           else None;
         SemgrepPanelView.findingsBlock :=
           if (0 <? length findings)%nat
           then Some (pretty (length findings) +:+ " finding"
                        +:+ (if negb (length findings =? 1)%nat then "s" else ""),
                      map SemgrepFinding findings)
           else None |}.

(** The panel as [AgentCard] renders it for a step. *)
Definition AgentCard_SemgrepPanel (step : PipelineStep.t)
    : option SemgrepPanelView.t :=
  SemgrepPanel (PipelineStep.toolActivity step)
    (PipelineStep.semgrepFindings step)
    (AgentStatus_eqb (PipelineStep.status step) complete).

(** [HandoffConnector] *)
Module ConnectorView.
Record t := mk {
  packet : bool;
  bubble : option string;
  arrow : bool;
}.
End ConnectorView.

Definition HandoffConnector (summary : option string) (isAnimating : bool)
    : ConnectorView.t :=
  {| ConnectorView.packet := isAnimating;
     ConnectorView.bubble :=
       match summary with
       | Some t => if isAnimating && JS.truthy t then Some t else None
       | None => None
       end;
     ConnectorView.arrow := negb isAnimating |}.

(** [activeHandoff?.from === step.agent] *)
Definition handoffFrom (activeHandoff : option HandoffEvent.t)
    (step : PipelineStep.t) : bool :=
  match activeHandoff with
  | Some h => String.eqb (HandoffEvent.from h) (PipelineStep.agent step)
  | None => false
  end.

(** [PipelineProgress]: [None] is [null]; otherwise one entry per step, the
    step its [AgentCard] is rendered from and the connector below it. *)
Definition PipelineProgress (steps : list PipelineStep.t) (isActive : bool)
    (activeHandoff : option HandoffEvent.t)
    : option (list (PipelineStep.t * option ConnectorView.t)) :=
  if negb isActive
     && forallb (fun s => AgentStatus_eqb (PipelineStep.status s) pending) steps
  then None
  else
    Some
      (imap (fun index step =>
         (step,
          if Z.of_nat index <? Z.of_nat (length steps) - 1
          then Some
                 (HandoffConnector
                    (if handoffFrom activeHandoff step
                     then HandoffEvent.summary <$> activeHandoff
                     else None)
                    (handoffFrom activeHandoff step))
          else None)) steps).

(** [Home] renders the panel from the page state. *)
Definition Home_PipelineProgress (st : State)
    : option (list (PipelineStep.t * option ConnectorView.t)) :=
  PipelineProgress (pipelineSteps st) (isAnalyzing st) (activeHandoff st).

(** ** The running clock ([useElapsedTimer.ts]) *)

Section ElapsedTimer.

(** [(ms / 1000).toFixed(1)], which rounds a binary fraction and is left
    open. *)
Variable toFixed1 : Z -> string.

(** [((ms % 60_000) / 1000).toFixed(0)] for [ms >= 60_000]: a multiple
    of one thousandth is a tie only at a half, which is exact in binary and
    rounds up, so this is rounding to the nearest second, halves up. *)
Definition secondsToFixed0 (ms : Z) : string :=
  pretty ((ms mod 60000 + 500) / 1000).

(** The text [tick] stores for an elapsed time of [ms] milliseconds. *)
Definition tick (ms : Z) : string :=
  if ms <? 1000 then toFixed1 ms +:+ "s"
  else if ms <? 60000 then toFixed1 ms +:+ "s"
  else pretty (ms / 60000) +:+ "m " +:+ secondsToFixed0 ms +:+ "s".

End ElapsedTimer.

(** ** Traces of a stream *)

Definition nl : string := String "010" EmptyString.

(** Whether a character occurs in a string. *)
Fixpoint hasChar (c : ascii) (s : string) : bool :=
  match s with
  | EmptyString => false
  | String c' r => Ascii.eqb c' c || hasChar c r
  end.

(** The text of one event on the wire: an [event: ] line, a [data: ] line
    and a blank line. *)
Definition sseFrame (evType data : string) : string :=
  "event: " +:+ evType +:+ nl +:+ "data: " +:+ data +:+ nl +:+ nl.

Fixpoint sseFrames (frames : list (string * string)) : string :=
  match frames with
  | [] => EmptyString
  | (evType, data) :: r => sseFrame evType data +:+ sseFrames r
  end.

(** The environments of the events number [n], [n + 1], ... of a stream,
    paired with the events. *)
Definition clocked (clock : nat -> Env) (n : nat) (es : list SSEEvent)
    : list (Env * SSEEvent) :=
  zip (map clock (seq n (length es))) es.

(** What a list of events does to one step. *)
Definition stepUpdates (es : list (Env * SSEEvent)) (s : PipelineStep.t)
    : PipelineStep.t :=
  foldl (fun s0 ee => stepUpdate ee.1 ee.2 s0) s es.

(** The narration lines, tool names and findings a list of events carries
    for a stage. *)
Definition thoughtsFor (a : string) (es : list (Env * SSEEvent)) : list string :=
  omap (fun ee =>
    match ee.2 with
    | agent_thought agent text => if String.eqb a agent then Some text else None
    | _ => None
    end) es.

Definition toolsFor (a : string) (es : list (Env * SSEEvent)) : list string :=
  omap (fun ee =>
    match ee.2 with
    | tool_called agent tool => if String.eqb a agent then Some tool else None
    | _ => None
    end) es.

Definition findingsOf (es : list (Env * SSEEvent)) : list SemgrepFindingEvent.t :=
  omap (fun ee =>
    match ee.2 with
    | semgrep_finding finding => Some finding
    | _ => None
    end) es.

(** A frame of text and the event the loop makes of it: neither part spans
    lines, the trimmed event type is not empty and the data parses. *)
Definition frameOf (parseData : string -> string -> option SSEEvent)
    (frame : string * string) (e : SSEEvent) : Prop :=
  hasChar "010" frame.1 = false
  /\ hasChar "010" frame.2 = false
  /\ JS.trim frame.1 ≠ ""
  /\ parseData (JS.trim frame.1) frame.2 = Some e.

(** The value of the local [eventType] when the lines of a chunk are done:
    not empty when an [event: ] line still waits for its [data: ] line. *)
Definition eventTypeAfterChunk (parseData : string -> string -> option SSEEvent)
    (clock : nat -> Env) (acc : string * State * nat) (chunk : string) : string :=
  (foldl (handleLine parseData clock) ("", acc.1.2, acc.2)
     (removelast (JS.split "010" (acc.1.1 +:+ chunk)))).1.1.

(** A stand-in for [JSON.parse] and the cast, a clock, two frames with
    their events, and a page with code loaded. *)
Definition sampleParse (evType data : string) : option SSEEvent :=
  if String.eqb evType "agent_thought"
  then Some (agent_thought "Triage Agent" data)
  else if String.eqb evType "analysis_complete"
  then Some (analysis_complete degradedResult)
  else None.

Definition sampleClock (n : nat) : Env := mkEnv (Z.of_nat n) n.

Definition sampleFrames : list (string * string) :=
  [ ("agent_thought", "Reading the upload."); ("analysis_complete", "{}") ].

Definition sampleEvents : list SSEEvent :=
  [ agent_thought "Triage Agent" "Reading the upload.";
    analysis_complete degradedResult ].

Definition codeLoaded : State :=
  handleFileContentLoaded "app.py" "print(1)" initialState.

(** * Properties *)

(** ** One event, step by step *)

Lemma handleSSEEvent_steps env e st :
  pipelineSteps (handleSSEEvent env e st)
  = map (stepUpdate env e) (pipelineSteps st).
Proof.
  destruct e; simpl; try (symmetry; apply map_id).
  all: apply map_ext; intros s; simpl;
    try (destruct (String.eqb _ _)); reflexivity.
Qed.

Lemma stepUpdate_agent env e s :
  PipelineStep.agent (stepUpdate env e s) = PipelineStep.agent s.
Proof. destruct e; simpl; try destruct (String.eqb _ _); reflexivity. Qed.

Lemma stepUpdate_step env e s :
  PipelineStep.step (stepUpdate env e s) = PipelineStep.step s.
Proof. destruct e; simpl; try destruct (String.eqb _ _); reflexivity. Qed.

Lemma handleSSEEvent_lookup env e st i :
  pipelineSteps (handleSSEEvent env e st) !! i
  = stepUpdate env e <$> pipelineSteps st !! i.
Proof. rewrite handleSSEEvent_steps. apply list_lookup_fmap. Qed.

(** ** Invariants of the step list

    A property of the step list that holds of [buildInitialSteps] and is kept
    by every event holds after every page history. *)

Section StepsInvariant.

Variable P : list PipelineStep.t -> Prop.
Hypothesis P_initial : P buildInitialSteps.
Hypothesis P_event : forall env e st,
  P (pipelineSteps st) -> P (pipelineSteps (handleSSEEvent env e st)).

Lemma foldl_invariant {A B} (I : A -> Prop) (f : A -> B -> A) l :
  (forall a b, I a -> I (f a b)) -> forall a, I a -> I (foldl f a l).
Proof.
  intros Hf. induction l as [|b l IH]; intros a Ha; simpl; [assumption|].
  apply IH, Hf, Ha.
Qed.

Lemma catchError_steps err st :
  pipelineSteps (catchError err st) = pipelineSteps st.
Proof. reflexivity. Qed.

Lemma handleLine_invariant parseData clock acc line :
  P (pipelineSteps acc.1.2) ->
  P (pipelineSteps (handleLine parseData clock acc line).1.2).
Proof.
  destruct acc as [[evType st] n]; simpl. intros H.
  destruct (JS.startsWith "event: " line); [exact H|].
  destruct (JS.startsWith "data: " line && JS.truthy evType); [|exact H].
  destruct (parseData _ _); simpl; [apply P_event, H|exact H].
Qed.

Lemma handleChunk_invariant parseData clock acc chunk :
  P (pipelineSteps acc.1.2) ->
  P (pipelineSteps (handleChunk parseData clock acc chunk).1.2).
Proof.
  destruct acc as [[buffer st] n]; simpl. intros H.
  unfold handleChunk.
  pose proof (foldl_invariant (fun a => P (pipelineSteps a.1.2))
    (handleLine parseData clock)
    (removelast (JS.split "010" (buffer +:+ chunk)))
    (handleLine_invariant parseData clock) ("", st, n) H) as HI.
  destruct (foldl _ _ _) as [[e' st'] n']. exact HI.
Qed.

Lemma readStream_invariant parseData clock s st :
  P (pipelineSteps st) -> P (pipelineSteps (readStream parseData clock s st)).
Proof.
  intros H. unfold readStream.
  pose proof (foldl_invariant (fun a => P (pipelineSteps a.1.2))
    (handleChunk parseData clock) (ReadableStream.chunks s)
    (handleChunk_invariant parseData clock) ("", st, 0%nat) H) as HI.
  destruct (foldl _ _ _) as [[b' st'] n'].
  destruct (ReadableStream.failure s); exact HI.
Qed.

Lemma handleAnalyzeCode_invariant url parseData clock net st :
  P (pipelineSteps st) ->
  P (pipelineSteps (handleAnalyzeCode url parseData clock net st).1).
Proof.
  intros H. unfold handleAnalyzeCode.
  destruct (negb (JS.truthy (codeContent st))); [exact H|]. simpl.
  destruct net as [err|response]; [exact P_initial|].
  destruct (negb (Response.ok response)); [exact P_initial|].
  destruct (Response.body response) as [s|]; [|exact P_initial].
  apply readStream_invariant. exact P_initial.
Qed.

Lemma perform_invariant st a :
  P (pipelineSteps st) -> P (pipelineSteps (perform st a)).
Proof.
  intros H. destruct a; simpl.
  - destruct file as [f|]; simpl; [|exact H].
    destruct (JS.endsWith _ _); exact H.
  - exact P_initial.
  - exact P_initial.
  - exact H.
  - destruct file as [f|]; simpl; [|exact H].
    destruct (JS.endsWith ".py" (JS.toLowerCase _)); simpl; [|exact H].
    destruct (JS.endsWith _ _); exact H.
  - apply handleAnalyzeCode_invariant, H.
  - apply P_event, H.
  - unfold handoffTimeout. destruct (bool_decide _); exact H.
  - unfold handleAnalyzeCode_begin.
    destruct (negb (JS.truthy (codeContent st))); [exact H|exact P_initial].
  - destruct err; exact H.
Qed.

Lemma run_invariant acts : P (pipelineSteps (run acts)).
Proof.
  unfold run. apply (foldl_invariant (fun st => P (pipelineSteps st))).
  - intros st a. apply perform_invariant.
  - exact P_initial.
Qed.

End StepsInvariant.

(** ** The stage list *)

Lemma stagesFixed_initial : stagesFixed buildInitialSteps.
Proof. split; reflexivity. Qed.

Lemma stagesFixed_event env e st :
  stagesFixed (pipelineSteps st) ->
  stagesFixed (pipelineSteps (handleSSEEvent env e st)).
Proof.
  intros [Ha Hs]. rewrite handleSSEEvent_steps. split.
  - rewrite <- Ha, map_map. apply map_ext. intros s. apply stepUpdate_agent.
  - rewrite <- Hs, map_map. apply map_ext. intros s. apply stepUpdate_step.
Qed.

Lemma run_stagesFixed acts : stagesFixed (pipelineSteps (run acts)).
Proof.
  apply run_invariant; [exact stagesFixed_initial|].
  intros env e st. apply stagesFixed_event.
Qed.

Lemma run_length acts : length (pipelineSteps (run acts)) = 6%nat.
Proof.
  destruct (run_stagesFixed acts) as [Ha _].
  rewrite <- (length_map PipelineStep.agent), Ha. reflexivity.
Qed.

(** C1. The pipeline has exactly the six stages Triage Agent, Static
    Analysis Agent, Code Review Agent, Red Team Agent, Blue Team Agent,
    Report Synthesizer, in this order.  [buildInitialSteps] numbers them
    1..6 in that order and starts each one [pending] with no narration, no
    tool activity and no findings.  Names and ordinals stay as they are
    after every page history. *)
Theorem C1_six_stages_in_fixed_order :
  DEFAULT_AGENTS =
    [ "Triage Agent"; "Static Analysis Agent"; "Code Review Agent";
      "Red Team Agent"; "Blue Team Agent"; "Report Synthesizer" ]
  /\ length buildInitialSteps = 6%nat
  /\ map PipelineStep.agent buildInitialSteps = DEFAULT_AGENTS
  /\ map PipelineStep.step buildInitialSteps = [1; 2; 3; 4; 5; 6]
  /\ Forall (fun s =>
       PipelineStep.status s = pending
       /\ PipelineStep.thoughts s = []
       /\ PipelineStep.toolActivity s = []
       /\ PipelineStep.semgrepFindings s = []) buildInitialSteps
  /\ forall acts,
       length (pipelineSteps (run acts)) = 6%nat
       /\ map PipelineStep.agent (pipelineSteps (run acts)) = DEFAULT_AGENTS
       /\ map PipelineStep.step (pipelineSteps (run acts)) = [1; 2; 3; 4; 5; 6].
Proof.
  repeat split; try reflexivity.
  - repeat constructor.
  - apply run_length.
  - apply run_stagesFixed.
  - apply run_stagesFixed.
Qed.

(** ** Storing the result *)

Lemma analysis_complete_statuses env data st :
  map PipelineStep.status
    (pipelineSteps (handleSSEEvent env (analysis_complete data) st))
  = replicate (length (pipelineSteps st)) complete.
Proof.
  rewrite handleSSEEvent_steps, map_map. simpl.
  induction (pipelineSteps st) as [|s l IH]; simpl; [reflexivity|].
  f_equal. exact IH.
Qed.

(** C2, as stated, fails in both directions.  When every stage has started
    and completed and [analysis_complete] has not arrived yet, all six
    stages are [complete] and no result is stored; and when a stage event
    follows [analysis_complete], the result is stored and a stage is
    [running]. *)
Lemma C2_stored_result_and_six_complete_stages_come_apart :
  (map PipelineStep.status (pipelineSteps allStagesDone)
   = [complete; complete; complete; complete; complete; complete]
   /\ analysisResults allStagesDone = None)
  /\ (analysisResults resultThenStart = Some degradedResult
      /\ map PipelineStep.status (pipelineSteps resultThenStart)
         = [running; complete; complete; complete; complete; complete]).
Proof. repeat split. Qed.

(** C2, amended. After an [analysis_complete] event every step is
    [complete], whatever its status was, and the stored result is the
    event's payload; after a page history these are the six stages.  No
    other event changes the stored result. *)
Theorem C2_result_stored_with_all_stages_complete :
  (forall env data st,
     let st' := handleSSEEvent env (analysis_complete data) st in
     Forall (fun s => PipelineStep.status s = complete) (pipelineSteps st')
     /\ length (pipelineSteps st') = length (pipelineSteps st)
     /\ analysisResults st' = Some data)
  /\ (forall acts env data,
        map PipelineStep.status
          (pipelineSteps (handleSSEEvent env (analysis_complete data) (run acts)))
        = [complete; complete; complete; complete; complete; complete])
  /\ (forall env e st,
        analysisResults (handleSSEEvent env e st)
        = match e with
          | analysis_complete data => Some data
          | _ => analysisResults st
          end).
Proof.
  split; [|split].
  - intros env data st st'. subst st'. split; [|split].
    + pose proof (analysis_complete_statuses env data st) as H.
      apply Forall_forall. intros s Hs.
      assert (PipelineStep.status s ∈
        replicate (length (pipelineSteps st)) complete) as Hin.
      { rewrite <- H. apply list_elem_of_fmap. eauto. }
      apply elem_of_replicate in Hin. tauto.
    + rewrite handleSSEEvent_steps. apply length_map.
    + reflexivity.
  - intros acts env data.
    rewrite analysis_complete_statuses, run_length. reflexivity.
  - intros env e st. destruct e; reflexivity.
Qed.

(** ** Stage status and the error event *)

(** C3, as stated, fails: after the failure of the running Triage stage is
    reported, that stage is still [running] and no step is ['failed']. *)
Lemma C3_error_event_sets_no_failed_status :
  map (fun s => AgentStatus_literal (PipelineStep.status s))
    (pipelineSteps triageFailure)
  = [ "running"; "pending"; "pending"; "pending"; "pending"; "pending" ]
  /\ ~ Exists (fun s => AgentStatus_literal (PipelineStep.status s) = "failed")
       (pipelineSteps triageFailure).
Proof.
  split; [reflexivity|].
  intros H. apply Exists_exists in H as (s & Hs & Hf).
  destruct (PipelineStep.status s); discriminate.
Qed.

(** C3, amended. A stage's status is one of [pending], [running] and
    [complete]; there is no ['failed'].  An [error] event stores the error
    message, ['Analysis failed'] when the event has none or an empty one,
    and leaves every step and the stored result as they were: no status
    changes, so no pending stage leaves [pending]. *)
Theorem C3_three_statuses_and_error_event_keeps_steps :
  (forall a, AgentStatus_literal a ∈ ["pending"; "running"; "complete"])
  /\ (forall a, AgentStatus_literal a ≠ "failed")
  /\ (forall env message st,
        let st' := handleSSEEvent env (error_event message) st in
        pipelineSteps st' = pipelineSteps st
        /\ analysisResults st' = analysisResults st
        /\ error st' = Some (JS.or_default message "Analysis failed")
        /\ JS.or_default message "Analysis failed" ≠ "").
Proof.
  split; [|split].
  - intros []; simpl; set_solver.
  - intros []; discriminate.
  - intros env message st. simpl. repeat split.
    destruct message as [m|]; simpl; [|discriminate].
    unfold JS.truthy. destruct (String.eqb_spec m ""); simpl; [discriminate|assumption].
Qed.

(** ** Completing a stage *)

Lemma substring_0_prefix m s :
  exists rest,
    s = String.substring 0 m s +:+ rest
    /\ String.length (String.substring 0 m s) = Nat.min m (String.length s).
Proof.
  revert m. induction s as [|c s IH]; intros [|m]; simpl.
  - exists "". split; reflexivity.
  - exists "". split; reflexivity.
  - exists (String c s). split; reflexivity.
  - destruct (IH m) as (rest & Heq & Hlen). exists rest. split.
    + change (String c s = String c (String.substring 0 m s +:+ rest)).
      f_equal. exact Heq.
    + f_equal. exact Hlen.
Qed.

(** [t.slice(0, n)] is the first [n] characters of [t], all of [t] when it
    is shorter. *)
Lemma slice_0_prefix n t :
  exists rest,
    t = JS.slice 0 n t +:+ rest
    /\ String.length (JS.slice 0 n t) = Nat.min n (String.length t).
Proof.
  unfold JS.slice. simpl Nat.min at 1.
  change (Nat.min 0 (String.length t)) with 0%nat.
  rewrite Nat.sub_0_r.
  destruct (substring_0_prefix (Nat.min n (String.length t)) t) as (rest & Heq & Hlen).
  exists rest. split; [exact Heq|]. rewrite Hlen. lia.
Qed.

(** C4. An [agent_complete] event for a stage sets that stage's status to
    [complete], its elapsed duration to the event's [elapsed_ms] ([null]
    when absent) and its summary to the first 80 characters of the stage's
    last narration line ([null] when there is none), and leaves the stage's
    other fields alone.  No event of another type writes the elapsed
    duration or the summary of any step. *)
Theorem C4_agent_complete_sets_status_elapsed_summary env ev st i s :
  pipelineSteps st !! i = Some s ->
  PipelineStep.agent s = StreamAgentCompleteEvent.agent ev ->
  (exists s',
     pipelineSteps (handleSSEEvent env (agent_complete ev) st) !! i = Some s'
     /\ PipelineStep.status s' = complete
     /\ PipelineStep.elapsedMs s' = StreamAgentCompleteEvent.elapsed_ms ev
     /\ (PipelineStep.thoughts s = [] -> PipelineStep.summary s' = None)
     /\ (forall l t, PipelineStep.thoughts s = l ++ [t] ->
           exists r rest,
             PipelineStep.summary s' = Some r
             /\ t = r +:+ rest
             /\ String.length r = Nat.min 80 (String.length t))
     /\ PipelineStep.agent s' = PipelineStep.agent s
     /\ PipelineStep.step s' = PipelineStep.step s
     /\ PipelineStep.thoughts s' = PipelineStep.thoughts s
     /\ PipelineStep.toolActivity s' = PipelineStep.toolActivity s
     /\ PipelineStep.semgrepFindings s' = PipelineStep.semgrepFindings s
     /\ PipelineStep.startedAt s' = PipelineStep.startedAt s)
  /\ (forall env' e' st',
        match e' with
        | agent_complete _ => True
        | _ =>
            map PipelineStep.elapsedMs (pipelineSteps (handleSSEEvent env' e' st'))
            = map PipelineStep.elapsedMs (pipelineSteps st')
            /\ map PipelineStep.summary (pipelineSteps (handleSSEEvent env' e' st'))
               = map PipelineStep.summary (pipelineSteps st')
        end).
Proof.
  intros Hi Ha. split.
  - eexists. split.
    { rewrite handleSSEEvent_lookup, Hi. reflexivity. }
    simpl. apply String.eqb_eq in Ha. rewrite Ha. simpl.
    repeat split.
    + intros Ht. rewrite Ht. reflexivity.
    + intros l t Ht. rewrite Ht. unfold lastThoughtSummary. rewrite last_snoc.
      destruct (slice_0_prefix 80 t) as (rest & Heq & Hlen).
      exists (JS.slice 0 80 t), rest. auto.
  - intros env' e' st'.
    destruct e'; try exact I; rewrite handleSSEEvent_steps, !map_map;
      split; apply map_ext; intros s0; simpl;
      try destruct (String.eqb _ _); reflexivity.
Qed.

Lemma C4_witness :
  pipelineSteps triageThinking !! 0%nat = Some triageThinkingStep
  /\ PipelineStep.agent triageThinkingStep = StreamAgentCompleteEvent.agent triageDone
  /\ exists s',
       pipelineSteps (handleSSEEvent env0 (agent_complete triageDone) triageThinking)
         !! 0%nat = Some s'
       /\ PipelineStep.status s' = complete
       /\ PipelineStep.elapsedMs s' = Some 1200.
Proof.
  split; [reflexivity|]. split; [reflexivity|].
  destruct (C4_agent_complete_sets_status_elapsed_summary env0 triageDone
              triageThinking 0%nat triageThinkingStep eq_refl eq_refl)
    as [(s' & H1 & H2 & H3 & _) _].
  exists s'. auto.
Defined.

(** ** Empty submissions *)

(** C5. With empty code content [handleAnalyzeCode] returns at once: it
    only alerts, issues no request and handles no stage event, and leaves
    the page state as it was, so steps that were [pending] remain
    [pending], and no result and no error is set. *)
Theorem C5_empty_code_is_rejected_before_any_request
    url parseData clock net st :
  codeContent st = "" ->
  let r := handleAnalyzeCode url parseData clock net st in
  r.2 = [alert "Please upload a Python file first"]
  /\ existsb is_fetch r.2 = false
  /\ r.1 = st
  /\ (Forall (fun s => PipelineStep.status s = pending) (pipelineSteps st) ->
      Forall (fun s => PipelineStep.status s = pending) (pipelineSteps r.1))
  /\ (analysisResults st = None -> analysisResults r.1 = None)
  /\ (error st = None -> error r.1 = None)
  /\ isAnalyzing r.1 = isAnalyzing st.
Proof.
  intros Hc. unfold handleAnalyzeCode. rewrite Hc. simpl.
  repeat split; auto.
Qed.

Lemma C5_witness :
  codeContent initialState = ""
  /\ (handleAnalyzeCode "" (fun _ _ => None) (fun _ => env0)
        (fetch_rejected NotAnError) initialState).1 = initialState
  /\ Forall (fun s => PipelineStep.status s = pending)
       (pipelineSteps
          (handleAnalyzeCode "" (fun _ _ => None) (fun _ => env0)
             (fetch_rejected NotAnError) initialState).1)
  /\ analysisResults
       (handleAnalyzeCode "" (fun _ _ => None) (fun _ => env0)
          (fetch_rejected NotAnError) initialState).1 = None
  /\ error
       (handleAnalyzeCode "" (fun _ _ => None) (fun _ => env0)
          (fetch_rejected NotAnError) initialState).1 = None.
Proof.
  split; [reflexivity|].
  destruct (C5_empty_code_is_rejected_before_any_request
              "" (fun _ _ => None) (fun _ => env0) (fetch_rejected NotAnError)
              initialState eq_refl)
    as (_ & _ & Hst & Hp & Hr & He & _).
  split; [exact Hst|]. split; [|split].
  - apply Hp. repeat constructor.
  - apply Hr. reflexivity.
  - apply He. reflexivity.
Defined.

(** ** Degraded results *)

(** C6. A result with no issues, once received, is shown with the note in
    place of the issue table.  Receiving it does not touch the error state,
    so the error banner is as before and absent when no error was set; only
    an [error] event sets it.  The code type ["unknown"] is never shown as a
    tag. *)
Theorem C6_empty_issues_shown_as_note env data st :
  AnalysisResponse.issues data = [] ->
  let st' := handleSSEEvent env (analysis_complete data) st in
  (exists r,
     View.results (Home_AnalysisResults st') = Some r
     /\ View.issues r = View.note
     /\ View.issuesCount r = 0%nat
     /\ View.summary r = AnalysisResponse.summary data)
  /\ error st' = error st
  /\ View.errorBanner (Home_AnalysisResults st')
     = View.errorBanner (Home_AnalysisResults st)
  /\ (error st = None -> View.errorBanner (Home_AnalysisResults st') = None)
  /\ (forall env' e' st0,
        error (handleSSEEvent env' e' st0)
        = match e' with
          | error_event message => Some (JS.or_default message "Analysis failed")
          | _ => error st0
          end)
  /\ (forall r0 tags,
        View.tags (renderResults r0) = Some tags ->
        View.codeTypeTag tags ≠ Some "unknown")
  /\ (AnalysisResponse.code_type data = "unknown" ->
      forall r tags,
        View.results (Home_AnalysisResults st') = Some r ->
        View.tags r = Some tags -> View.codeTypeTag tags = None).
Proof.
  intros Hissues st'. subst st'. split; [|split; [|split; [|split; [|split; [|split]]]]].
  - eexists. split; [reflexivity|]. simpl. rewrite Hissues. auto.
  - reflexivity.
  - reflexivity.
  - intros He. unfold Home_AnalysisResults, AnalysisResults. simpl.
    rewrite He. reflexivity.
  - intros env' e' st0. destruct e'; reflexivity.
  - intros r0 tags. unfold renderResults. simpl.
    destruct (JS.truthy _ || _); [|discriminate].
    intros [= <-]. simpl.
    destruct (String.eqb_spec (AnalysisResponse.code_type r0) "unknown") as [->|Hne].
    + rewrite andb_false_r. discriminate.
    + destruct (JS.truthy _); simpl; [|discriminate].
      intros [= Heq]. contradiction.
  - intros Hu r tags. simpl. intros [= <-]. simpl. rewrite Hu. simpl.
    intros [= <-]. reflexivity.
Qed.

Lemma C6_witness :
  AnalysisResponse.issues degradedResult = []
  /\ (exists r,
        View.results
          (Home_AnalysisResults
             (handleSSEEvent env0 (analysis_complete degradedResult) initialState))
        = Some r
        /\ View.issues r = View.note)
  /\ View.errorBanner
       (Home_AnalysisResults
          (handleSSEEvent env0 (analysis_complete degradedResult) initialState))
     = None.
Proof.
  split; [reflexivity|].
  destruct (C6_empty_issues_shown_as_note env0 degradedResult initialState eq_refl)
    as ((r & Hr & Hn & _) & _ & _ & He & _).
  split; [exists r; auto|]. apply He. reflexivity.
Defined.

(** ** Severity styles of a finding *)

(** C7, as stated, fails: ["Error"] and ["error"] differ in case only, yet
    ["error"] gets the red style and ["Error"] the neutral one. *)
Lemma C7_mixed_case_severity_gets_default_style :
  JS.toLowerCase "Error" = JS.toLowerCase "error"
  /\ colorClass (findingOfSeverity "error") = classes "bg-red-100 text-red-700"
  /\ colorClass (findingOfSeverity "Error") = classes "bg-gray-100 text-gray-600"
  /\ colorClass (findingOfSeverity "Error") ≠ colorClass (findingOfSeverity "error").
Proof. repeat split; try reflexivity. discriminate. Qed.

(** A closed string is not in a closed list of other strings. *)
Ltac not_listed :=
  let H := fresh in
  intros H;
  repeat (apply elem_of_cons in H as [H|H]; [discriminate H|]);
  apply elem_of_nil in H; exact H.

Lemma severityColors_miss s :
  s ∉ ["ERROR"; "WARNING"; "INFO"; "error"; "warning"; "info"] ->
  severityColors !! s = None.
Proof.
  intros H. unfold severityColors. simpl.
  repeat (apply not_elem_of_cons in H as [? H]).
  repeat (rewrite lookup_insert_ne by congruence).
  apply lookup_empty.
Qed.

(** C7, amended. The style of a finding is looked up by the exact severity
    string.  The all-uppercase and the all-lowercase spelling of each of the
    three tiers have the same style: red for error, amber for warning, blue
    for info.  A severity that is none of these six spellings, and is not
    the name of a built-in object member, gets the neutral style. *)
Theorem C7_upper_and_lower_case_tiers_share_a_style finding finding' :
  (SemgrepFindingEvent.severity finding ∈ ["ERROR"; "WARNING"; "INFO"] ->
   SemgrepFindingEvent.severity finding'
   = JS.toLowerCase (SemgrepFindingEvent.severity finding) ->
   colorClass finding' = colorClass finding
   /\ colorClass finding
      = classes
          (if String.eqb (SemgrepFindingEvent.severity finding) "ERROR"
           then "bg-red-100 text-red-700"
           else if String.eqb (SemgrepFindingEvent.severity finding) "WARNING"
           then "bg-amber-100 text-amber-700"
           else "bg-blue-100 text-blue-700"))
  /\ (SemgrepFindingEvent.severity finding
        ∉ ["ERROR"; "WARNING"; "INFO"; "error"; "warning"; "info"] ->
      SemgrepFindingEvent.severity finding ∉ Object_prototype_members ->
      colorClass finding = classes "bg-gray-100 text-gray-600").
Proof.
  split.
  - intros Hin Hlow. unfold colorClass. rewrite Hlow.
    repeat (apply elem_of_cons in Hin as [->|Hin]); try (split; reflexivity).
    apply elem_of_nil in Hin. contradiction.
  - intros Hk Hp. unfold colorClass.
    rewrite (severityColors_miss _ Hk).
    rewrite bool_decide_eq_false_2 by exact Hp. reflexivity.
Qed.

Lemma C7_witness :
  (SemgrepFindingEvent.severity (findingOfSeverity "WARNING")
     ∈ ["ERROR"; "WARNING"; "INFO"]
   /\ SemgrepFindingEvent.severity (findingOfSeverity "warning")
      = JS.toLowerCase (SemgrepFindingEvent.severity (findingOfSeverity "WARNING"))
   /\ colorClass (findingOfSeverity "warning")
      = colorClass (findingOfSeverity "WARNING"))
  /\ ((SemgrepFindingEvent.severity (findingOfSeverity "Error")
         ∉ ["ERROR"; "WARNING"; "INFO"; "error"; "warning"; "info"])
      /\ (SemgrepFindingEvent.severity (findingOfSeverity "Error")
            ∉ Object_prototype_members)
      /\ colorClass (findingOfSeverity "Error")
         = classes "bg-gray-100 text-gray-600").
Proof.
  assert (SemgrepFindingEvent.severity (findingOfSeverity "WARNING")
            ∈ ["ERROR"; "WARNING"; "INFO"]) as H1
    by (simpl; set_solver).
  assert (SemgrepFindingEvent.severity (findingOfSeverity "Error")
            ∉ ["ERROR"; "WARNING"; "INFO"; "error"; "warning"; "info"]) as H2
    by (simpl; not_listed).
  assert (SemgrepFindingEvent.severity (findingOfSeverity "Error")
            ∉ Object_prototype_members) as H3
    by (simpl; not_listed).
  split.
  - split; [exact H1|]. split; [reflexivity|].
    apply (C7_upper_and_lower_case_tiers_share_a_style
             (findingOfSeverity "WARNING") (findingOfSeverity "warning"));
      [exact H1|reflexivity].
  - split; [exact H2|]. split; [exact H3|].
    apply (C7_upper_and_lower_case_tiers_share_a_style
             (findingOfSeverity "Error") (findingOfSeverity "Error"));
      [exact H2|exact H3].
Defined.

(** ** Where findings go *)

Lemma stepUpdate_findings_other env e s :
  PipelineStep.agent s ≠ "Static Analysis Agent" ->
  PipelineStep.semgrepFindings (stepUpdate env e s)
  = PipelineStep.semgrepFindings s.
Proof.
  intros Hne. destruct e; simpl; try destruct (String.eqb _ _) eqn:E;
    try reflexivity.
  apply String.eqb_eq in E. contradiction.
Qed.

Lemma stepUpdate_findings_static env finding s :
  PipelineStep.agent s = "Static Analysis Agent" ->
  PipelineStep.semgrepFindings (stepUpdate env (semgrep_finding finding) s)
  = PipelineStep.semgrepFindings s ++ [finding].
Proof. intros Ha. simpl. rewrite Ha. reflexivity. Qed.

Lemma run_findingsOnlyInStaticAnalysis acts :
  findingsOnlyInStaticAnalysis (pipelineSteps (run acts)).
Proof.
  apply run_invariant.
  - split; [exact stagesFixed_initial|]. repeat constructor.
  - intros env e st [Hfix Hall]. split; [apply stagesFixed_event, Hfix|].
    rewrite handleSSEEvent_steps. apply Forall_map.
    eapply Forall_impl; [exact Hall|]. intros s Hs. simpl.
    rewrite stepUpdate_agent. intros Hne.
    rewrite stepUpdate_findings_other by exact Hne. auto.
Qed.

Lemma stagesFixed_lookup l i s :
  stagesFixed l -> l !! i = Some s ->
  DEFAULT_AGENTS !! i = Some (PipelineStep.agent s)
  /\ [1; 2; 3; 4; 5; 6] !! i = Some (PipelineStep.step s).
Proof.
  intros [Ha Hs] Hi. rewrite <- Ha, <- Hs, !list_lookup_fmap, Hi. auto.
Qed.

Lemma stagesFixed_static_analysis l :
  stagesFixed l ->
  exists s, l !! 1%nat = Some s
    /\ PipelineStep.agent s = "Static Analysis Agent"
    /\ PipelineStep.step s = 2.
Proof.
  intros Hfix. destruct (l !! 1%nat) as [s|] eqn:Hi.
  - destruct (stagesFixed_lookup l 1 s Hfix Hi) as [Ha Hs].
    exists s. simpl in Ha, Hs. split; [reflexivity|]. split; congruence.
  - destruct Hfix as [Ha _]. apply lookup_ge_None in Hi.
    rewrite <- (length_map PipelineStep.agent), Ha in Hi. simpl in Hi. lia.
Qed.

(** C8. After every page history the step of ordinal 2 is the stage named
    ['Static Analysis Agent'], and a [semgrep_finding] event appends its
    finding to that step's findings.  The findings of every other step are
    empty after every history, and no event changes the findings of a step
    with another name. *)
Theorem C8_findings_go_to_static_analysis_only :
  (forall acts env finding,
     exists s s',
       pipelineSteps (run acts) !! 1%nat = Some s
       /\ PipelineStep.agent s = "Static Analysis Agent"
       /\ PipelineStep.step s = 2
       /\ pipelineSteps (handleSSEEvent env (semgrep_finding finding) (run acts))
            !! 1%nat = Some s'
       /\ PipelineStep.semgrepFindings s'
          = PipelineStep.semgrepFindings s ++ [finding])
  /\ (forall acts i s,
        pipelineSteps (run acts) !! i = Some s ->
        i ≠ 1%nat ->
        PipelineStep.agent s ≠ "Static Analysis Agent"
        /\ PipelineStep.semgrepFindings s = [])
  /\ (forall env e st i s,
        pipelineSteps st !! i = Some s ->
        PipelineStep.agent s ≠ "Static Analysis Agent" ->
        exists s',
          pipelineSteps (handleSSEEvent env e st) !! i = Some s'
          /\ PipelineStep.semgrepFindings s' = PipelineStep.semgrepFindings s)
  /\ (forall env finding st i s,
        pipelineSteps st !! i = Some s ->
        PipelineStep.agent s = "Static Analysis Agent" ->
        exists s',
          pipelineSteps (handleSSEEvent env (semgrep_finding finding) st) !! i
          = Some s'
          /\ PipelineStep.semgrepFindings s'
             = PipelineStep.semgrepFindings s ++ [finding]).
Proof.
  split; [|split; [|split]].
  - intros acts env finding.
    destruct (stagesFixed_static_analysis _ (run_stagesFixed acts))
      as (s & Hi & Ha & Hs).
    exists s, (stepUpdate env (semgrep_finding finding) s).
    repeat split; try assumption.
    + rewrite handleSSEEvent_lookup, Hi. reflexivity.
    + apply stepUpdate_findings_static, Ha.
  - intros acts i s Hi Hne.
    destruct (run_findingsOnlyInStaticAnalysis acts) as [Hfix Hall].
    assert (PipelineStep.agent s ≠ "Static Analysis Agent") as Hag.
    { destruct (stagesFixed_lookup _ i s Hfix Hi) as [Ha _].
      do 6 (destruct i as [|i]; [simpl in Ha; try congruence|]).
      discriminate Ha. }
    split; [exact Hag|].
    rewrite Forall_lookup in Hall. exact (Hall i s Hi Hag).
  - intros env e st i s Hi Hne. eexists. split.
    + rewrite handleSSEEvent_lookup, Hi. reflexivity.
    + apply stepUpdate_findings_other, Hne.
  - intros env finding st i s Hi Ha. eexists. split.
    + rewrite handleSSEEvent_lookup, Hi. reflexivity.
    + apply stepUpdate_findings_static, Ha.
Qed.

Lemma C8_witness :
  pipelineSteps (run []) !! 2%nat = Some codeReviewStep
  /\ 2%nat ≠ 1%nat
  /\ PipelineStep.agent codeReviewStep ≠ "Static Analysis Agent"
  /\ PipelineStep.semgrepFindings codeReviewStep = []
  /\ exists s',
       pipelineSteps (handleSSEEvent env0 (semgrep_finding firstFinding) (run []))
         !! 2%nat = Some s'
       /\ PipelineStep.semgrepFindings s'
          = PipelineStep.semgrepFindings codeReviewStep.
Proof.
  destruct C8_findings_go_to_static_analysis_only as (_ & Hother & Hkeep & _).
  assert (2%nat ≠ 1%nat) as Hne by lia.
  destruct (Hother [] 2%nat codeReviewStep eq_refl Hne) as [Hag Hnil].
  split; [reflexivity|]. split; [exact Hne|]. split; [exact Hag|].
  split; [exact Hnil|].
  exact (Hkeep env0 (semgrep_finding firstFinding) (run []) 2%nat codeReviewStep
           eq_refl Hag).
Defined.

(** ** Per-stage events *)

(** C9. An [agent_start], [agent_thought], [tool_called] or
    [agent_complete] event changes only the steps whose agent is the stage
    the event names: every other step stays as it is, no step is added,
    removed or renamed, and the narration and tool activity of a changed
    step only grow at the end. *)
Theorem C9_per_stage_event_updates_only_its_stage env e a st i s :
  stageName e = Some a ->
  pipelineSteps st !! i = Some s ->
  length (pipelineSteps (handleSSEEvent env e st)) = length (pipelineSteps st)
  /\ exists s',
       pipelineSteps (handleSSEEvent env e st) !! i = Some s'
       /\ (PipelineStep.agent s ≠ a -> s' = s)
       /\ PipelineStep.agent s' = PipelineStep.agent s
       /\ PipelineStep.step s' = PipelineStep.step s
       /\ PipelineStep.thoughts s `prefix_of` PipelineStep.thoughts s'
       /\ PipelineStep.toolActivity s `prefix_of` PipelineStep.toolActivity s'.
Proof.
  intros Hname Hi. split.
  { rewrite handleSSEEvent_steps. apply length_map. }
  exists (stepUpdate env e s). split.
  { rewrite handleSSEEvent_lookup, Hi. reflexivity. }
  split; [|split; [apply stepUpdate_agent|split; [apply stepUpdate_step|]]].
  - intros Hne. destruct e; simpl in Hname; try discriminate;
      injection Hname as <-; cbn [stepUpdate];
      (destruct (String.eqb _ _) eqn:E;
       [apply String.eqb_eq in E; congruence|reflexivity]).
  - destruct e; simpl in Hname; try discriminate; cbn [stepUpdate];
      destruct (String.eqb _ _); simpl; split;
      try reflexivity; apply prefix_app_r; reflexivity.
Qed.

Lemma C9_witness :
  stageName (agent_thought "Red Team Agent" "Chaining the SQL injection.")
  = Some "Red Team Agent"
  /\ pipelineSteps initialState !! 0%nat = Some triageStep
  /\ pipelineSteps
       (handleSSEEvent env0
          (agent_thought "Red Team Agent" "Chaining the SQL injection.")
          initialState) !! 0%nat = Some triageStep.
Proof.
  split; [reflexivity|]. split; [reflexivity|].
  destruct (C9_per_stage_event_updates_only_its_stage env0
              (agent_thought "Red Team Agent" "Chaining the SQL injection.")
              "Red Team Agent" initialState 0%nat triageStep eq_refl eq_refl)
    as (_ & s' & Hs' & Hsame & _).
  rewrite Hs'. f_equal. apply Hsame. discriminate.
Defined.

(** ** Accepting a file *)

Lemma length_append pre p :
  String.length (pre +:+ p) = (String.length pre + String.length p)%nat.
Proof.
  induction pre as [|c pre IH]; [reflexivity|].
  change (S (String.length (pre +:+ p))
          = S (String.length pre + String.length p)).
  f_equal. exact IH.
Qed.

Lemma substring_0_all s : String.substring 0 (String.length s) s = s.
Proof. induction s as [|c s IH]; simpl; [reflexivity|]. f_equal. exact IH. Qed.

Lemma substring_append_skip pre p m :
  String.substring (String.length pre) m (pre +:+ p) = String.substring 0 m p.
Proof.
  induction pre as [|c pre IH]; [reflexivity|].
  change (String.substring (String.length pre) m (pre +:+ p)
          = String.substring 0 m p).
  exact IH.
Qed.

Lemma substring_split k s :
  (k <= String.length s)%nat ->
  s = String.substring 0 k s
      +:+ String.substring k (String.length s - k) s.
Proof.
  revert k. induction s as [|c s IH]; intros [|k] Hk; simpl in *.
  - reflexivity.
  - lia.
  - change (String c s = String c (String.substring 0 (String.length s) s)).
    rewrite substring_0_all. reflexivity.
  - change (String c s
            = String c (String.substring 0 k s
                        +:+ String.substring k (String.length s - k) s)).
    f_equal. apply IH. lia.
Qed.

(** [endsWith] holds exactly of the strings that end in the given suffix. *)
Lemma endsWith_spec p s :
  JS.endsWith p s = true <-> exists pre, s = pre +:+ p.
Proof.
  unfold JS.endsWith, JS.slice_from, JS.slice. split.
  - intros [Hle Heq]%andb_true_iff.
    apply Nat.leb_le in Hle. apply String.eqb_eq in Heq.
    rewrite Nat.min_id, Nat.min_l in Heq by lia.
    exists (String.substring 0 (String.length s - String.length p) s).
    assert (String.length s - String.length p <= String.length s)%nat as Hk by lia.
    pose proof (substring_split _ s Hk) as Hs.
    rewrite Heq in Hs. exact Hs.
  - intros [pre ->]. rewrite length_append.
    apply andb_true_iff. split; [apply Nat.leb_le; lia|].
    apply String.eqb_eq.
    rewrite Nat.min_id, Nat.min_l by lia.
    replace (String.length pre + String.length p - String.length p)%nat
      with (String.length pre) by lia.
    replace (String.length pre + String.length p - String.length pre)%nat
      with (String.length p) by lia.
    rewrite substring_append_skip. apply substring_0_all.
Qed.

Lemma toLowerCase_append a b :
  JS.toLowerCase (a +:+ b) = JS.toLowerCase a +:+ JS.toLowerCase b.
Proof.
  induction a as [|c a IH]; [reflexivity|].
  change (String (JS.lower_ascii c) (JS.toLowerCase (a +:+ b))
          = String (JS.lower_ascii c) (JS.toLowerCase a +:+ JS.toLowerCase b)).
  f_equal. exact IH.
Qed.

(** A name that ends in [".py"] still does once lowercased. *)
Lemma endsWith_py_toLowerCase name :
  JS.endsWith ".py" name = true ->
  JS.endsWith ".py" (JS.toLowerCase name) = true.
Proof.
  intros [pre ->]%endsWith_spec. apply endsWith_spec.
  exists (JS.toLowerCase pre). apply toLowerCase_append.
Qed.

Lemma accepted_handleFileUpload file st :
  accepted (handleFileUpload (Some file) st) = JS.endsWith ".py" (File.name file).
Proof.
  unfold handleFileUpload. destruct (JS.endsWith _ _); reflexivity.
Qed.

Lemma accepted_Home_handleDrop file st :
  accepted (Home_handleDrop (Some file) st).2 = JS.endsWith ".py" (File.name file).
Proof.
  unfold Home_handleDrop, handleDrop.
  destruct (JS.endsWith ".py" (File.name file)) eqn:E.
  - rewrite (endsWith_py_toLowerCase _ E). cbn [snd].
    rewrite accepted_handleFileUpload. exact E.
  - destruct (JS.endsWith ".py" (JS.toLowerCase _)); cbn [snd]; [|reflexivity].
    rewrite accepted_handleFileUpload. exact E.
Qed.

(** C10, on the code. The test of [handleDrop] itself is the
    case-insensitive one, and the file picker takes a file exactly when its
    name ends in ['.py'] as written.  But [handleDrop] hands the file to
    [handleFileUpload], which tests the name again as written: a dropped
    [APP.PY] passes the first test and is then refused with the alert,
    nothing is read and the page state is unchanged.  A dropped file is
    taken exactly when the picker would take it. *)
Theorem C10_dropped_upper_case_extension_is_refused :
  JS.endsWith ".py" (JS.toLowerCase "APP.PY") = true
  /\ JS.endsWith ".py" "APP.PY" = false
  /\ (forall st,
        Home_handleDrop (Some (File.mk "APP.PY")) st
        = (false, (st, [alert "Please select a Python (.py) file"])))
  /\ (forall st,
        handleFileUpload (Some (File.mk "APP.PY")) st
        = (st, [alert "Please select a Python (.py) file"]))
  /\ (forall st, accepted (Home_handleDrop (Some (File.mk "APP.PY")) st).2 = false)
  /\ (forall file st,
        accepted (handleDrop (fun f st0 => (st0, [readAsText file])) (Some file) st).2
        = JS.endsWith ".py" (JS.toLowerCase (File.name file)))
  /\ (forall file st,
        accepted (handleFileUpload (Some file) st) = true
        <-> exists stem, File.name file = stem +:+ ".py")
  /\ (forall file st,
        accepted (Home_handleDrop (Some file) st).2
        = accepted (handleFileUpload (Some file) st)).
Proof.
  split; [reflexivity|]. split; [reflexivity|]. split; [reflexivity|].
  split; [reflexivity|]. split; [reflexivity|]. split; [|split].
  - intros file st. unfold handleDrop.
    destruct (JS.endsWith _ _); reflexivity.
  - intros file st. rewrite accepted_handleFileUpload. apply endsWith_spec.
  - intros file st.
    rewrite accepted_Home_handleDrop, accepted_handleFileUpload. reflexivity.
Qed.

(** * Further properties of the front end *)

(** ** Editor statistics *)

(** X1. The token estimate is the text length divided by four, rounded up:
    it is zero exactly for the empty text, and four times the estimate is
    at least the length and exceeds it by less than four. *)
Theorem estimateTokens_is_length_over_four_rounded_up text :
  (estimateTokens text = 0%nat <-> text = "")
  /\ (String.length text <= 4 * estimateTokens text)%nat
  /\ (4 * estimateTokens text < String.length text + 4)%nat.
Proof.
  unfold estimateTokens. destruct text as [|c r]; simpl.
  - split; [tauto|]. lia.
  - pose proof (Nat.div_mod_eq (S (String.length r) + 3) 4) as Hd.
    pose proof (Nat.mod_upper_bound (S (String.length r) + 3) 4) as Hm.
    split; [|simpl in *; lia].
    split; [|discriminate]. intros H0. simpl in *. lia.
Qed.

Lemma splitLines_length s :
  length (splitLines s) = S (countLineFeeds s).
Proof.
  induction s as [|c r IH]; [reflexivity|].
  assert (length
            match splitLines r with
            | h :: t => String c h :: t
            | [] => [String c EmptyString]
            end = length (splitLines r)) as Hkeep.
  { destruct (splitLines r); [discriminate IH|reflexivity]. }
  cbn [splitLines countLineFeeds].
  destruct (Ascii.eqb c "010") eqn:Hlf.
  - simpl. rewrite IH. reflexivity.
  - destruct (Ascii.eqb c "013") eqn:Hcr.
    + destruct r as [|c' r'].
      * rewrite Hkeep. exact IH.
      * destruct (Ascii.eqb c' "010") eqn:Hlf'.
        -- cbn [splitLines countLineFeeds] in IH. rewrite Hlf' in IH.
           cbn [countLineFeeds]. rewrite Hlf'. simpl in *. lia.
        -- rewrite Hkeep. exact IH.
    + rewrite Hkeep. exact IH.
Qed.

Lemma countLineFeeds_append a b :
  countLineFeeds (a +:+ b) = (countLineFeeds a + countLineFeeds b)%nat.
Proof.
  induction a as [|c a IH]; [reflexivity|].
  change (((if Ascii.eqb c "010" then 1 else 0) + countLineFeeds (a +:+ b))%nat
          = ((if Ascii.eqb c "010" then 1 else 0) + countLineFeeds a
             + countLineFeeds b)%nat).
  rewrite IH. lia.
Qed.

(** X2. The line count is zero for the empty text and otherwise one more
    than the number of line feeds, so a text counts the same with CRLF as
    with LF line ends. *)
Theorem getLineCount_counts_line_feeds :
  (forall text,
     getLineCount text
     = match text with
       | EmptyString => 0%nat
       | String _ _ => S (countLineFeeds text)
       end)
  /\ (forall a b,
        getLineCount (a +:+ String "013" (String "010" b))
        = getLineCount (a +:+ String "010" b)).
Proof.
  assert (forall text,
     getLineCount text
     = match text with
       | EmptyString => 0%nat
       | String _ _ => S (countLineFeeds text)
       end) as H.
  { intros [|c r]; [reflexivity|]. unfold getLineCount.
    change (JS.truthy (String c r)) with true. cbn [negb].
    apply splitLines_length. }
  split; [exact H|].
  intros a b. rewrite !H.
  destruct a as [|c a].
  - reflexivity.
  - change (S (countLineFeeds (String c a +:+ String "013" (String "010" b)))
            = S (countLineFeeds (String c a +:+ String "010" b))).
    rewrite !countLineFeeds_append. reflexivity.
Qed.

(** ** The results panel is never blank *)

(** X3. The results panel always shows something.  The placeholder is shown
    exactly when there is no result and no non-empty error, and then
    nothing else is; otherwise the error banner or the results are shown
    (both, when an error and a result are present). *)
Theorem AnalysisResults_shows_placeholder_or_content analysisResults isAnalyzing error :
  let v := AnalysisResults analysisResults isAnalyzing error in
  match View.placeholder v with
  | Some _ =>
      View.errorBanner v = None /\ View.results v = None
      /\ analysisResults = None /\ (error = None \/ error = Some "")
  | None =>
      (is_Some (View.errorBanner v) \/ is_Some (View.results v))
      /\ (is_Some (View.errorBanner v) <-> exists e, error = Some e /\ e ≠ "")
      /\ (is_Some (View.results v) <-> is_Some analysisResults)
  end.
Proof.
  unfold AnalysisResults, JS.truthy. simpl.
  destruct analysisResults as [r|], error as [e|]; simpl;
    try (destruct (String.eqb_spec e "") as [->|Hne]); simpl;
    unfold is_Some;
    repeat match goal with
           | |- _ /\ _ => split
           | |- _ <-> _ => split
           | |- (exists x, None = Some x) \/ _ => right
           | |- (exists x, Some _ = Some x) \/ _ => left
           | |- None = None \/ _ => left
           | |- _ \/ Some ?e = Some ?e => right
           | |- _ -> _ => intro
           | H : exists _, _ |- _ => destruct H
           | H : _ /\ _ |- _ => destruct H
           end;
    try congruence; eauto.
Qed.

(** ** The Semgrep panel *)

(** X4. The Semgrep panel is absent exactly when no scan was called and
    there are no findings.  When present it shows exactly one body: the
    findings, one card each, when there are any; else the fall-back notice
    once the stage is complete; else the scanning animation.  The header
    spinner goes with the animation and the header check with the notice. *)
Theorem SemgrepPanel_shows_exactly_one_body toolActivity findings isAgentComplete :
  match SemgrepPanel toolActivity findings isAgentComplete with
  | None => ("semgrep_scan" ∉ toolActivity) /\ findings = []
  | Some v =>
      SemgrepPanelView.headerSpinner v
      = bool_decide (is_Some (SemgrepPanelView.scanningBlock v))
      /\ SemgrepPanelView.headerCheck v
         = bool_decide (is_Some (SemgrepPanelView.fallbackNotice v))
      /\ match findings with
         | _ :: _ =>
             SemgrepPanelView.scanningBlock v = None
             /\ SemgrepPanelView.fallbackNotice v = None
             /\ exists label,
                  SemgrepPanelView.findingsBlock v
                  = Some (label, map SemgrepFinding findings)
         | [] =>
             "semgrep_scan" ∈ toolActivity
             /\ SemgrepPanelView.findingsBlock v = None
             /\ if isAgentComplete
                then SemgrepPanelView.scanningBlock v = None
                     /\ is_Some (SemgrepPanelView.fallbackNotice v)
                else is_Some (SemgrepPanelView.scanningBlock v)
                     /\ SemgrepPanelView.fallbackNotice v = None
         end
  end.
Proof.
  unfold SemgrepPanel.
  destruct findings as [|f fs]; simpl.
  - destruct (decide ("semgrep_scan" ∈ toolActivity)) as [Hin|Hout].
    + rewrite (bool_decide_eq_true_2 _ Hin). simpl.
      destruct isAgentComplete; simpl; repeat split; eauto.
    + rewrite (bool_decide_eq_false_2 _ Hout). simpl. auto.
  - rewrite andb_false_r. simpl. rewrite !andb_false_r. simpl.
    repeat split; eauto.
Qed.

(** ** What a stream leaves in a step *)

Lemma handleSSEEvents_steps es st :
  pipelineSteps (handleSSEEvents es st) = map (stepUpdates es) (pipelineSteps st).
Proof.
  revert st. induction es as [|[env e] es IH]; intros st; simpl.
  - symmetry. apply map_id.
  - rewrite IH, handleSSEEvent_steps, map_map. reflexivity.
Qed.

Lemma stepUpdates_agent es s :
  PipelineStep.agent (stepUpdates es s) = PipelineStep.agent s.
Proof.
  revert s. induction es as [|[env e] es IH]; intros s; simpl; [reflexivity|].
  unfold stepUpdates in *. simpl. rewrite IH. apply stepUpdate_agent.
Qed.

Lemma stepUpdates_step es s :
  PipelineStep.step (stepUpdates es s) = PipelineStep.step s.
Proof.
  revert s. induction es as [|[env e] es IH]; intros s; simpl; [reflexivity|].
  unfold stepUpdates in *. simpl. rewrite IH. apply stepUpdate_step.
Qed.

Lemma stepUpdates_trace es s :
  PipelineStep.thoughts (stepUpdates es s)
  = PipelineStep.thoughts s ++ thoughtsFor (PipelineStep.agent s) es
  /\ PipelineStep.toolActivity (stepUpdates es s)
     = PipelineStep.toolActivity s ++ toolsFor (PipelineStep.agent s) es
  /\ PipelineStep.semgrepFindings (stepUpdates es s)
     = PipelineStep.semgrepFindings s
       ++ (if String.eqb (PipelineStep.agent s) "Static Analysis Agent"
           then findingsOf es else []).
Proof.
  revert s. induction es as [|[env e] es IH]; intros s.
  - simpl. rewrite !app_nil_r. destruct (String.eqb _ _); rewrite ?app_nil_r; auto.
  - unfold stepUpdates in *. cbn [foldl fst snd].
    destruct (IH (stepUpdate env e s)) as (Ht & Ha & Hf).
    rewrite Ht, Ha, Hf, stepUpdate_agent. clear IH Ht Ha Hf.
    unfold thoughtsFor, toolsFor, findingsOf. cbn [omap fst snd].
    change (@omap list _) with (@list_omap).
    destruct e; cbn [stepUpdate list_omap fst snd];
      try (destruct (String.eqb (PipelineStep.agent s) _) eqn:E);
      cbn [PipelineStep.thoughts PipelineStep.toolActivity
           PipelineStep.semgrepFindings];
      rewrite <- ?app_assoc; cbn [app]; auto.
Qed.

(** X5. After any events, a step's narration is what it was followed by
    the texts of the [agent_thought] events that name it, in arrival order;
    likewise its tool activity and the [tool_called] events; and the
    findings of a step named ['Static Analysis Agent'] are followed by the
    findings of all [semgrep_finding] events, while those of any other step
    are unchanged.  Names and ordinals are kept. *)
Theorem handleSSEEvents_accumulates_the_stream es st i s :
  pipelineSteps st !! i = Some s ->
  exists s',
    pipelineSteps (handleSSEEvents es st) !! i = Some s'
    /\ PipelineStep.agent s' = PipelineStep.agent s
    /\ PipelineStep.step s' = PipelineStep.step s
    /\ PipelineStep.thoughts s'
       = PipelineStep.thoughts s ++ thoughtsFor (PipelineStep.agent s) es
    /\ PipelineStep.toolActivity s'
       = PipelineStep.toolActivity s ++ toolsFor (PipelineStep.agent s) es
    /\ PipelineStep.semgrepFindings s'
       = PipelineStep.semgrepFindings s
         ++ (if String.eqb (PipelineStep.agent s) "Static Analysis Agent"
             then findingsOf es else []).
Proof.
  intros Hi. exists (stepUpdates es s). split.
  { rewrite handleSSEEvents_steps, list_lookup_fmap, Hi. reflexivity. }
  split; [apply stepUpdates_agent|]. split; [apply stepUpdates_step|].
  apply stepUpdates_trace.
Qed.

Lemma handleSSEEvents_accumulates_the_stream_witness :
  pipelineSteps initialState !! 0%nat = Some triageStep
  /\ exists s',
       pipelineSteps
         (handleSSEEvents (clocked sampleClock 0 sampleEvents) initialState)
         !! 0%nat = Some s'
       /\ PipelineStep.thoughts s' = ["Reading the upload."].
Proof.
  split; [reflexivity|].
  destruct (handleSSEEvents_accumulates_the_stream
              (clocked sampleClock 0 sampleEvents) initialState 0%nat triageStep
              eq_refl) as (s' & Hs' & _ & _ & Ht & _).
  exists s'. split; [exact Hs'|exact Ht].
Defined.

(** ** The pipeline panel *)

Lemma AgentStatus_eqb_eq a b : AgentStatus_eqb a b = true <-> a = b.
Proof. destruct a, b; simpl; split; intros H; try reflexivity; discriminate. Qed.

Lemma stepUpdate_pending env e s :
  PipelineStep.status (stepUpdate env e s) = pending ->
  PipelineStep.status s = pending.
Proof.
  destruct e; cbn [stepUpdate]; try destruct (String.eqb _ _);
    simpl; auto; discriminate.
Qed.

Lemma handleSSEEvent_all_pending env e st :
  forallb (fun s => AgentStatus_eqb (PipelineStep.status s) pending)
    (pipelineSteps (handleSSEEvent env e st)) = true ->
  forallb (fun s => AgentStatus_eqb (PipelineStep.status s) pending)
    (pipelineSteps st) = true.
Proof.
  rewrite handleSSEEvent_steps, !forallb_forall. intros H s Hs.
  apply AgentStatus_eqb_eq, (stepUpdate_pending env e), AgentStatus_eqb_eq.
  apply H, in_map, Hs.
Qed.

Lemma handleSSEEvent_isAnalyzing env e st :
  isAnalyzing (handleSSEEvent env e st) = isAnalyzing st.
Proof. destruct e; reflexivity. Qed.

(** X6. No event sets a step back to [pending], and no event changes
    whether an analysis is running: a pipeline panel that is shown stays
    shown while a stream is handled. *)
Theorem Home_PipelineProgress_stays_shown es st :
  is_Some (Home_PipelineProgress st) ->
  is_Some (Home_PipelineProgress (handleSSEEvents es st)).
Proof.
  revert st. induction es as [|[env e] es IH]; intros st H; [exact H|].
  simpl. apply IH. clear IH.
  unfold Home_PipelineProgress, PipelineProgress in *.
  rewrite handleSSEEvent_isAnalyzing.
  destruct (negb (isAnalyzing st)); simpl in *; [|eauto].
  destruct (forallb _ (pipelineSteps (handleSSEEvent env e st))) eqn:E; [|eauto].
  rewrite (handleSSEEvent_all_pending _ _ _ E) in H. exact H.
Qed.

Lemma Home_PipelineProgress_stays_shown_witness :
  is_Some (Home_PipelineProgress triageThinking)
  /\ is_Some
       (Home_PipelineProgress
          (handleSSEEvents (clocked sampleClock 0 sampleEvents) triageThinking)).
Proof.
  assert (is_Some (Home_PipelineProgress triageThinking)) as H
    by (vm_compute; eauto).
  split; [exact H|].
  apply (Home_PipelineProgress_stays_shown _ triageThinking H).
Defined.

Lemma stagesFixed_six l :
  stagesFixed l ->
  exists s0 s1 s2 s3 s4 s5,
    l = [s0; s1; s2; s3; s4; s5]
    /\ map PipelineStep.agent [s0; s1; s2; s3; s4; s5] = DEFAULT_AGENTS.
Proof.
  intros [Ha _].
  do 6 (destruct l as [|? l]; [discriminate Ha|]).
  destruct l; [|discriminate Ha]. eauto 10.
Qed.

(** X7. In every page state whose steps are the six stages in order, as
    they are after every page history, a pipeline panel that is shown,
    while an analysis runs or after it, has the six steps in order, a
    connector below each of the first five and none below the last.  The
    connector below a stage animates exactly when the active hand-off comes
    from that stage, so at most one connector animates, and none does for a
    hand-off from the last stage or from an unknown one. *)
Theorem Home_PipelineProgress_cards_and_connectors st cards :
  stagesFixed (pipelineSteps st) ->
  Home_PipelineProgress st = Some cards ->
  map fst cards = pipelineSteps st
  /\ map (fun c => ConnectorView.packet <$> c.2) cards
     = map (fun a =>
              Some match activeHandoff st with
                   | Some h => String.eqb (HandoffEvent.from h) a
                   | None => false
                   end) (take 5 DEFAULT_AGENTS) ++ [None]
  /\ (length (List.filter
                 (fun c => match c.2 with
                           | Some v => ConnectorView.packet v
                           | None => false
                           end) cards) <= 1)%nat.
Proof.
  intros Hfixed. unfold Home_PipelineProgress, PipelineProgress.
  destruct (stagesFixed_six _ Hfixed)
    as (s0 & s1 & s2 & s3 & s4 & s5 & -> & Hag).
  injection Hag as H0 H1 H2 H3 H4 H5.
  destruct (negb _ && _); [discriminate|]. intros [= <-].
  unfold handoffFrom, HandoffConnector.
  cbn [imap length map fst snd take app fmap option_fmap option_map
       ConnectorView.packet List.filter].
  rewrite H0, H1, H2, H3, H4.
  split; [reflexivity|]. split.
  { destruct (activeHandoff st); reflexivity. }
  destruct (activeHandoff st) as [h|]; [|simpl; lia].
  destruct h as [from to summary]. cbn [HandoffEvent.from].
  destruct (String.eqb_spec from "Triage Agent") as [->|];
    [simpl; lia|cbv beta iota].
  destruct (String.eqb_spec from "Static Analysis Agent") as [->|];
    [simpl; lia|cbv beta iota].
  destruct (String.eqb_spec from "Code Review Agent") as [->|];
    [simpl; lia|cbv beta iota].
  destruct (String.eqb_spec from "Red Team Agent") as [->|];
    [simpl; lia|cbv beta iota].
  destruct (String.eqb_spec from "Blue Team Agent") as [->|];
    simpl; lia.
Qed.

Lemma Home_PipelineProgress_cards_and_connectors_witness :
  stagesFixed (pipelineSteps analysisUnderWay)
  /\ isAnalyzing analysisUnderWay = true
  /\ Forall (fun s => PipelineStep.status s = pending) (pipelineSteps analysisUnderWay)
  /\ exists cards,
       Home_PipelineProgress analysisUnderWay = Some cards
       /\ map (fun c => ConnectorView.packet <$> c.2) cards
          = [Some true; Some false; Some false; Some false; Some false; None].
Proof.
  assert (stagesFixed (pipelineSteps analysisUnderWay)) as H
    by (split; reflexivity).
  split; [exact H|]. split; [reflexivity|]. split; [repeat constructor|].
  eexists. split; [reflexivity|].
  apply (Home_PipelineProgress_cards_and_connectors analysisUnderWay _ H eq_refl).
Defined.

(** ** Lines of a stream *)

Lemma append_assoc a b c : (a +:+ b) +:+ c = a +:+ (b +:+ c).
Proof.
  induction a as [|x a IH]; [reflexivity|].
  change (String x ((a +:+ b) +:+ c) = String x (a +:+ (b +:+ c))).
  f_equal. exact IH.
Qed.

Lemma split_nonempty sep s : JS.split sep s ≠ [].
Proof.
  destruct s as [|c r]; cbn [JS.split]; [discriminate|].
  destruct (Ascii.eqb c sep); [discriminate|].
  destruct (JS.split sep r); discriminate.
Qed.

Lemma split_no_sep sep s : hasChar sep s = false -> JS.split sep s = [s].
Proof.
  induction s as [|c r IH]; cbn [hasChar JS.split]; [reflexivity|].
  intros [Hc Hr]%orb_false_iff. rewrite Hc, (IH Hr). reflexivity.
Qed.

Lemma split_app_sep sep a b :
  hasChar sep a = false ->
  JS.split sep (a +:+ String sep b) = a :: JS.split sep b.
Proof.
  induction a as [|c a IH]; intros H.
  - change (JS.split sep (String sep b) = EmptyString :: JS.split sep b).
    cbn [JS.split]. rewrite Ascii.eqb_refl. reflexivity.
  - cbn [hasChar] in H. apply orb_false_iff in H as [Hc Ha].
    change (JS.split sep (String c (a +:+ String sep b))
            = String c a :: JS.split sep b).
    cbn [JS.split]. rewrite Hc, (IH Ha). reflexivity.
Qed.

Lemma split_app sep a b :
  JS.split sep (a +:+ b)
  = removelast (JS.split sep a)
    ++ JS.split sep (default "" (last (JS.split sep a)) +:+ b).
Proof.
  induction a as [|c a IH]; [reflexivity|].
  change (JS.split sep (String c (a +:+ b))
          = removelast (JS.split sep (String c a))
            ++ JS.split sep (default "" (last (JS.split sep (String c a))) +:+ b)).
  pose proof (split_nonempty sep a) as Hne.
  cbn [JS.split]. destruct (Ascii.eqb c sep) eqn:Hc.
  - rewrite IH. destruct (JS.split sep a) as [|x l]; [contradiction|].
    reflexivity.
  - rewrite IH. destruct (JS.split sep a) as [|x [|y l]]; [contradiction| |].
    + cbn [removelast last default app]. unfold id.
      change (String c x +:+ b) with (String c (x +:+ b)).
      cbn [JS.split]. rewrite Hc. reflexivity.
    + reflexivity.
Qed.

Lemma removelast_app_nonempty {A} (l l' : list A) :
  l' ≠ [] -> removelast (l ++ l') = l ++ removelast l'.
Proof. intros H. apply removelast_app, H. Qed.

Lemma last_app_nonempty {A} (l l' : list A) :
  l' ≠ [] -> last (l ++ l') = last l'.
Proof.
  intros H. rewrite last_app. destruct (last l') eqn:E; [reflexivity|].
  apply last_None in E. contradiction.
Qed.

(** X8. A chunk boundary is invisible unless it separates an [event: ]
    line from its [data: ] line: when no event type is held at the end of
    the first chunk, handling two chunks one after the other is handling
    their concatenation.  In particular a boundary inside a line is
    invisible. *)
Theorem handleChunk_joins_chunks parseData clock buffer st n c1 c2 :
  eventTypeAfterChunk parseData clock (buffer, st, n) c1 = "" ->
  handleChunk parseData clock (handleChunk parseData clock (buffer, st, n) c1) c2
  = handleChunk parseData clock (buffer, st, n) (c1 +:+ c2).
Proof.
  unfold eventTypeAfterChunk, handleChunk. cbn [fst snd].
  rewrite <- (append_assoc buffer c1 c2).
  rewrite (split_app "010" (buffer +:+ c1) c2).
  set (L1 := JS.split "010" (buffer +:+ c1)).
  set (L2 := JS.split "010" (default "" (last L1) +:+ c2)).
  assert (L2 ≠ []) as HL2 by apply split_nonempty.
  rewrite removelast_app_nonempty, last_app_nonempty by exact HL2.
  rewrite foldl_app.
  destruct (foldl (handleLine parseData clock) ("", st, n) (removelast L1))
    as [[ev1 st1] n1].
  cbn [fst snd]. intros ->. reflexivity.
Qed.

Lemma handleChunk_joins_chunks_witness :
  eventTypeAfterChunk sampleParse sampleClock ("", initialState, 0%nat)
    "event: agent_th" = ""
  /\ handleChunk sampleParse sampleClock
       (handleChunk sampleParse sampleClock ("", initialState, 0%nat)
          "event: agent_th")
       ("ought" +:+ nl +:+ "data: Reading the upload." +:+ nl)
     = handleChunk sampleParse sampleClock ("", initialState, 0%nat)
         ("event: agent_th" +:+ "ought" +:+ nl +:+ "data: Reading the upload." +:+ nl).
Proof.
  split; [reflexivity|].
  apply (handleChunk_joins_chunks sampleParse sampleClock "" initialState 0%nat
           "event: agent_th"
           ("ought" +:+ nl +:+ "data: Reading the upload." +:+ nl)).
  reflexivity.
Defined.

Lemma prefix_append p s : String.prefix p (p +:+ s) = true.
Proof.
  induction p as [|c p IH]; [destruct s; reflexivity|].
  change (String.prefix (String c p) (String c (p +:+ s)) = true).
  simpl. destruct (ascii_dec c c) as [_|Hne]; [exact IH|contradiction].
Qed.

Lemma slice_from_append p s : JS.slice_from (String.length p) (p +:+ s) = s.
Proof.
  unfold JS.slice_from, JS.slice. rewrite length_append.
  rewrite Nat.min_id, Nat.min_l by lia.
  replace (String.length p + String.length s - String.length p)%nat
    with (String.length s) by lia.
  rewrite substring_append_skip. apply substring_0_all.
Qed.

Lemma handleLine_event parseData clock ev st n evType :
  handleLine parseData clock (ev, st, n) ("event: " +:+ evType)
  = (JS.trim evType, st, n).
Proof.
  unfold handleLine, JS.startsWith. rewrite prefix_append.
  change (JS.slice_from 7 ("event: " +:+ evType))
    with (JS.slice_from (String.length "event: ") ("event: " +:+ evType)).
  rewrite slice_from_append. reflexivity.
Qed.

Lemma handleLine_data parseData clock ev st n data :
  JS.truthy ev = true ->
  handleLine parseData clock (ev, st, n) ("data: " +:+ data)
  = match parseData ev data with
    | Some e => ("", handleSSEEvent (clock n) e st, S n)
    | None => ("", st, n)
    end.
Proof.
  intros Hev. unfold handleLine, JS.startsWith.
  change (String.prefix "event: " ("data: " +:+ data)) with false.
  rewrite prefix_append, Hev. cbn [andb].
  change (JS.slice_from 6 ("data: " +:+ data))
    with (JS.slice_from (String.length "data: ") ("data: " +:+ data)).
  rewrite slice_from_append. reflexivity.
Qed.

Lemma truthy_true s : s ≠ "" -> JS.truthy s = true.
Proof.
  intros H. unfold JS.truthy. destruct (String.eqb_spec s ""); [contradiction|reflexivity].
Qed.

Lemma hasChar_append c a b : hasChar c (a +:+ b) = hasChar c a || hasChar c b.
Proof.
  induction a as [|x a IH]; [reflexivity|].
  change (Ascii.eqb x c || hasChar c (a +:+ b)
          = Ascii.eqb x c || hasChar c a || hasChar c b).
  rewrite IH. apply orb_assoc.
Qed.

Lemma sseFrame_lines evType data rest :
  hasChar "010" evType = false ->
  hasChar "010" data = false ->
  JS.split "010" (sseFrame evType data +:+ rest)
  = ("event: " +:+ evType) :: ("data: " +:+ data) :: "" :: JS.split "010" rest.
Proof.
  intros Ht Hd. unfold sseFrame, nl.
  rewrite !append_assoc.
  change (String "010" "" +:+ ("data: " +:+ data
            +:+ String "010" "" +:+ String "010" "" +:+ rest))
    with (String "010" ("data: " +:+ data
            +:+ String "010" "" +:+ String "010" "" +:+ rest)).
  rewrite <- (append_assoc "event: " evType).
  rewrite split_app_sep
    by (rewrite hasChar_append, Ht; reflexivity).
  change (String "010" "" +:+ String "010" "" +:+ rest)
    with (String "010" ("" +:+ String "010" rest)).
  rewrite <- (append_assoc "data: " data).
  rewrite split_app_sep
    by (rewrite hasChar_append, Hd; reflexivity).
  rewrite split_app_sep by reflexivity.
  reflexivity.
Qed.

Lemma sseFrames_fold parseData clock frames es :
  Forall2 (frameOf parseData) frames es ->
  forall st n,
    foldl (handleLine parseData clock) ("", st, n)
      (removelast (JS.split "010" (sseFrames frames)))
    = ("", handleSSEEvents (clocked clock n es) st, (n + length es)%nat)
    /\ last (JS.split "010" (sseFrames frames)) = Some "".
Proof.
  induction 1 as [|[evType data] e frames es (Ht & Hd & Hne & Hp) _ IH];
    intros st n.
  - simpl. rewrite Nat.add_0_r. auto.
  - cbn [sseFrames fst snd] in *.
    rewrite (sseFrame_lines _ _ _ Ht Hd).
    pose proof (split_nonempty "010" (sseFrames frames)) as Hnon.
    destruct (IH (handleSSEEvent (clock n) e st) (S n)) as [Hfold Hlast].
    change (("event: " +:+ evType) :: ("data: " +:+ data) :: ""
              :: JS.split "010" (sseFrames frames))
      with ([("event: " +:+ evType); ("data: " +:+ data); ""]
              ++ JS.split "010" (sseFrames frames)).
    rewrite removelast_app_nonempty, last_app_nonempty by exact Hnon.
    rewrite foldl_app. cbn [foldl].
    rewrite handleLine_event, (handleLine_data _ _ _ _ _ _ (truthy_true _ Hne)), Hp.
    change (handleLine parseData clock ("", handleSSEEvent (clock n) e st, S n) "")
      with ("", handleSSEEvent (clock n) e st, S n).
    rewrite Hfold. split; [|exact Hlast].
    f_equal. simpl. lia.
Qed.

Lemma handleChunk_sseFrames parseData clock frames es st n :
  Forall2 (frameOf parseData) frames es ->
  handleChunk parseData clock ("", st, n) (sseFrames frames)
  = ("", handleSSEEvents (clocked clock n es) st, (n + length es)%nat).
Proof.
  intros H. unfold handleChunk.
  change ("" +:+ sseFrames frames) with (sseFrames frames).
  destruct (sseFrames_fold parseData clock frames es H st n) as [Hfold Hlast].
  rewrite Hfold, Hlast. reflexivity.
Qed.

(** X9. Frames survive the wire: when one chunk carries whole frames, each
    an [event: ] line, a [data: ] line and a blank line, with a non-empty
    event type and data that parses, the loop hands exactly their events to
    [handleSSEEvent], in order, and keeps an empty buffer. *)
Theorem handleChunk_handles_every_frame parseData clock frames es st n :
  Forall2 (frameOf parseData) frames es ->
  handleChunk parseData clock ("", st, n) (sseFrames frames)
  = ("", handleSSEEvents (clocked clock n es) st, (n + length es)%nat).
Proof. apply handleChunk_sseFrames. Qed.

Lemma sampleFrames_frameOf : Forall2 (frameOf sampleParse) sampleFrames sampleEvents.
Proof.
  repeat constructor; try reflexivity; intros H; vm_compute in H; discriminate H.
Qed.

Lemma handleChunk_handles_every_frame_witness :
  Forall2 (frameOf sampleParse) sampleFrames sampleEvents
  /\ handleChunk sampleParse sampleClock ("", initialState, 0%nat)
       (sseFrames sampleFrames)
     = ("", handleSSEEvents (clocked sampleClock 0 sampleEvents) initialState,
        2%nat).
Proof.
  split; [exact sampleFrames_frameOf|].
  apply (handleChunk_handles_every_frame sampleParse sampleClock sampleFrames
           sampleEvents initialState 0%nat sampleFrames_frameOf).
Defined.

Lemma split_line x rest :
  hasChar "010" x = false ->
  JS.split "010" (x +:+ nl +:+ rest) = x :: JS.split "010" rest.
Proof. intros H. apply (split_app_sep "010" x rest H). Qed.

(** X10. An event is lost when the chunk boundary falls between its two
    lines: the event type is local to the handling of one chunk, so the
    [data: ] line that opens the next chunk is skipped and the page state
    is untouched, although the same two lines in one chunk hand the event
    over. *)
Theorem handleChunk_drops_event_split_after_its_event_line
    parseData clock evType data e st n :
  frameOf parseData (evType, data) e ->
  handleChunk parseData clock
    (handleChunk parseData clock ("", st, n) ("event: " +:+ evType +:+ nl))
    ("data: " +:+ data +:+ nl)
  = ("", st, n)
  /\ handleChunk parseData clock ("", st, n)
       (("event: " +:+ evType +:+ nl) +:+ ("data: " +:+ data +:+ nl))
     = ("", handleSSEEvent (clock n) e st, S n).
Proof.
  intros (Ht & Hd & Hne & Hp). cbn [fst snd] in *.
  assert (hasChar "010" ("event: " +:+ evType) = false) as Ht'
    by (rewrite hasChar_append, Ht; reflexivity).
  assert (hasChar "010" ("data: " +:+ data) = false) as Hd'
    by (rewrite hasChar_append, Hd; reflexivity).
  assert ("" +:+ ("event: " +:+ evType +:+ nl)
          = ("event: " +:+ evType) +:+ nl +:+ "") as E1
    by (rewrite append_assoc; reflexivity).
  assert (forall b, b +:+ ("data: " +:+ data +:+ nl)
          = b +:+ (("data: " +:+ data) +:+ nl +:+ "")) as E2
    by (intros b; rewrite (append_assoc "data: "); reflexivity).
  split.
  - unfold handleChunk at 2. rewrite E1, (split_line _ _ Ht').
    change (JS.split "010" "") with [""].
    change (removelast ["event: " +:+ evType; ""]) with ["event: " +:+ evType].
    change (default "" (last ["event: " +:+ evType; ""])) with "".
    cbn [foldl]. rewrite handleLine_event.
    unfold handleChunk. rewrite E2.
    change ("" +:+ (("data: " +:+ data) +:+ nl +:+ ""))
      with (("data: " +:+ data) +:+ nl +:+ "").
    rewrite (split_line _ _ Hd').
    change (JS.split "010" "") with [""].
    change (removelast ["data: " +:+ data; ""]) with ["data: " +:+ data].
    change (default "" (last ["data: " +:+ data; ""])) with "".
    cbn [foldl]. unfold handleLine, JS.startsWith.
    change (String.prefix "event: " ("data: " +:+ data)) with false.
    rewrite prefix_append. reflexivity.
  - unfold handleChunk.
    assert ("" +:+ ("event: " +:+ evType +:+ nl) +:+ "data: " +:+ data +:+ nl
            = ("event: " +:+ evType) +:+ nl
                +:+ (("data: " +:+ data) +:+ nl +:+ "")) as ->.
    { rewrite !append_assoc. reflexivity. }
    rewrite (split_line _ _ Ht'), (split_line _ _ Hd').
    change (JS.split "010" "") with [""].
    change (removelast ["event: " +:+ evType; "data: " +:+ data; ""])
      with ["event: " +:+ evType; "data: " +:+ data].
    change (default "" (last ["event: " +:+ evType; "data: " +:+ data; ""]))
      with "".
    cbn [foldl].
    rewrite handleLine_event, (handleLine_data _ _ _ _ _ _ (truthy_true _ Hne)), Hp.
    reflexivity.
Qed.

Lemma handleChunk_drops_event_split_after_its_event_line_witness :
  frameOf sampleParse ("agent_thought", "Reading the upload.")
    (agent_thought "Triage Agent" "Reading the upload.")
  /\ handleChunk sampleParse sampleClock
       (handleChunk sampleParse sampleClock ("", initialState, 0%nat)
          ("event: " +:+ "agent_thought" +:+ nl))
       ("data: " +:+ "Reading the upload." +:+ nl)
     = ("", initialState, 0%nat).
Proof.
  assert (frameOf sampleParse ("agent_thought", "Reading the upload.")
            (agent_thought "Triage Agent" "Reading the upload.")) as H.
  { repeat split; try reflexivity. intros H; vm_compute in H; discriminate H. }
  split; [exact H|].
  apply (handleChunk_drops_event_split_after_its_event_line sampleParse
           sampleClock _ _ _ initialState 0%nat H).
Defined.

Lemma in_removelast {A} (l : list A) x : In x (removelast l) -> In x l.
Proof.
  induction l as [|a l IH]; [intros []|].
  destruct l as [|b l]; [intros []|].
  intros [->|H]; [left; reflexivity|right; apply IH, H].
Qed.

Lemma handleLine_without_event_type parseData clock st n line :
  JS.startsWith "event: " line = false ->
  handleLine parseData clock ("", st, n) line = ("", st, n).
Proof.
  intros H. unfold handleLine. rewrite H.
  change (JS.truthy "") with false. rewrite andb_false_r. reflexivity.
Qed.

(** X11. Nothing is handled without an [event: ] line: when no line of
    the buffered text starts with [event: ], whatever [data: ] lines it
    has, the chunk changes neither the page state nor the event count, and
    the text after the last line feed is kept as the buffer. *)
Theorem handleChunk_needs_an_event_line parseData clock buffer st n chunk :
  Forall (fun line => JS.startsWith "event: " line = false)
    (JS.split "010" (buffer +:+ chunk)) ->
  handleChunk parseData clock (buffer, st, n) chunk
  = (default "" (last (JS.split "010" (buffer +:+ chunk))), st, n).
Proof.
  intros H. unfold handleChunk.
  assert (Forall (fun line => JS.startsWith "event: " line = false)
            (removelast (JS.split "010" (buffer +:+ chunk)))) as H'.
  { apply Forall_forall. intros l Hl. rewrite Forall_forall in H.
    apply H. apply list_elem_of_In. apply list_elem_of_In in Hl.
    apply in_removelast, Hl. }
  clear H.
  assert (foldl (handleLine parseData clock) ("", st, n)
            (removelast (JS.split "010" (buffer +:+ chunk))) = ("", st, n)) as ->.
  { induction H' as [|l L Hl _ IH]; [reflexivity|].
    cbn [foldl]. rewrite handleLine_without_event_type by exact Hl. exact IH. }
  reflexivity.
Qed.

Lemma handleChunk_needs_an_event_line_witness :
  Forall (fun line => JS.startsWith "event: " line = false)
    (JS.split "010" ("" +:+ ("data: Reading the upload." +:+ nl)))
  /\ handleChunk sampleParse sampleClock ("", triageThinking, 3%nat)
       ("data: Reading the upload." +:+ nl)
     = ("", triageThinking, 3%nat).
Proof.
  assert (Forall (fun line => JS.startsWith "event: " line = false)
            (JS.split "010" ("" +:+ ("data: Reading the upload." +:+ nl)))) as H
    by (repeat constructor).
  split; [exact H|].
  apply (handleChunk_needs_an_event_line sampleParse sampleClock ""
           triageThinking 3%nat ("data: Reading the upload." +:+ nl) H).
Defined.

(** ** Runs of [handleAnalyzeCode] *)

Section StateInvariant.

Variable Q : State -> Prop.
Hypothesis Q_event : forall env e st, Q st -> Q (handleSSEEvent env e st).
Hypothesis Q_error : forall v st, Q st -> Q (setError v st).

Lemma readStream_state_invariant parseData clock s st :
  Q st -> Q (readStream parseData clock s st).
Proof.
  intros H. unfold readStream.
  assert (Q (foldl (handleChunk parseData clock) ("", st, 0%nat)
               (ReadableStream.chunks s)).1.2) as HI.
  { apply (foldl_invariant (fun a => Q a.1.2)); [|exact H].
    intros [[buffer st0] n] chunk H0. unfold handleChunk. cbn [fst snd] in *.
    assert (Q (foldl (handleLine parseData clock) ("", st0, n)
                 (removelast (JS.split "010" (buffer +:+ chunk)))).1.2) as HL.
    { apply (foldl_invariant (fun a => Q a.1.2)); [|exact H0].
      intros [[ev st1] n1] line H1. unfold handleLine. cbn [fst snd] in *.
      destruct (JS.startsWith "event: " line); [exact H1|].
      destruct (JS.startsWith "data: " line && JS.truthy ev); [|exact H1].
      destruct (parseData ev _); [apply Q_event, H1|exact H1]. }
    destruct (foldl _ _ _) as [[ev' st'] n']. exact HL. }
  destruct (foldl _ _ _) as [[b' st'] n'].
  destruct (ReadableStream.failure s); [apply Q_error|]; exact HI.
Qed.

End StateInvariant.

Lemma handleSSEEvent_keeps_editor env e st :
  codeContent (handleSSEEvent env e st) = codeContent st
  /\ fileName (handleSSEEvent env e st) = fileName st.
Proof. destruct e; auto. Qed.

(** X12. With code to analyse, [handleAnalyzeCode] issues exactly one
    request, to the streaming endpoint and with the code as it is, however
    the request turns out; afterwards no analysis is marked as running, the
    code and the file name are as before, and the steps are the six stages
    in order. *)
Theorem handleAnalyzeCode_issues_one_request url parseData clock net st :
  codeContent st ≠ "" ->
  let r := handleAnalyzeCode url parseData clock net st in
  r.2 = [fetch (url +:+ "/api/analyze/stream") (codeContent st)]
  /\ isAnalyzing r.1 = false
  /\ codeContent r.1 = codeContent st
  /\ fileName r.1 = fileName st
  /\ stagesFixed (pipelineSteps r.1).
Proof.
  intros Hc r. subst r.
  split; [|split; [|split; [|split]]].
  - unfold handleAnalyzeCode. rewrite (truthy_true _ Hc). reflexivity.
  - unfold handleAnalyzeCode. rewrite (truthy_true _ Hc). reflexivity.
  - unfold handleAnalyzeCode. rewrite (truthy_true _ Hc). cbn [negb fst].
    destruct net as [err|response]; [reflexivity|].
    destruct (negb (Response.ok response)); [reflexivity|].
    destruct (Response.body response) as [s|]; [|reflexivity].
    apply (readStream_state_invariant
             (fun st0 => codeContent (setIsAnalyzing false st0) = codeContent st));
      [|auto|reflexivity].
    intros env e st0 H. simpl in *. rewrite <- H. apply handleSSEEvent_keeps_editor.
  - unfold handleAnalyzeCode. rewrite (truthy_true _ Hc). cbn [negb fst].
    destruct net as [err|response]; [reflexivity|].
    destruct (negb (Response.ok response)); [reflexivity|].
    destruct (Response.body response) as [s|]; [|reflexivity].
    apply (readStream_state_invariant
             (fun st0 => fileName (setIsAnalyzing false st0) = fileName st));
      [|auto|reflexivity].
    intros env e st0 H. simpl in *. rewrite <- H. apply handleSSEEvent_keeps_editor.
  - unfold handleAnalyzeCode. rewrite (truthy_true _ Hc). cbn [negb fst].
    destruct net as [err|response]; [exact stagesFixed_initial|].
    destruct (negb (Response.ok response)); [exact stagesFixed_initial|].
    destruct (Response.body response) as [s|]; [|exact stagesFixed_initial].
    apply (readStream_invariant stagesFixed); [|exact stagesFixed_initial].
    intros env e st0. apply stagesFixed_event.
Qed.

Lemma handleAnalyzeCode_issues_one_request_witness :
  codeContent codeLoaded ≠ ""
  /\ (handleAnalyzeCode "http://localhost:8000" sampleParse sampleClock
        (fetch_rejected NotAnError) codeLoaded).2
     = [fetch "http://localhost:8000/api/analyze/stream" "print(1)"]
  /\ isAnalyzing
       (handleAnalyzeCode "http://localhost:8000" sampleParse sampleClock
          (fetch_rejected NotAnError) codeLoaded).1 = false.
Proof.
  assert (codeContent codeLoaded ≠ "") as H by discriminate.
  split; [exact H|].
  destruct (handleAnalyzeCode_issues_one_request "http://localhost:8000"
              sampleParse sampleClock (fetch_rejected NotAnError) codeLoaded H)
    as (He & Ha & _).
  split; [exact He|exact Ha].
Defined.

(** X13. A request that fails before any event (the fetch rejects, the
    response is not ok, or it has no body) leaves a clean page: the steps
    are the initial ones, so the pipeline panel is hidden, the earlier
    result is gone and an error is stored.  The results panel then shows
    the error banner, or, when the thrown error has an empty message, the
    idle placeholder.  For a response that is not ok the banner names the
    status. *)
Theorem handleAnalyzeCode_failed_request_leaves_a_clean_page
    url parseData clock net st :
  codeContent st ≠ "" ->
  (exists err, net = fetch_rejected err)
  \/ (exists response,
        net = fetch_resolved response
        /\ (Response.ok response = false \/ Response.body response = None)) ->
  let st' := (handleAnalyzeCode url parseData clock net st).1 in
  pipelineSteps st' = buildInitialSteps
  /\ analysisResults st' = None
  /\ Home_PipelineProgress st' = None
  /\ View.results (Home_AnalysisResults st') = None
  /\ (exists message,
        error st' = Some message
        /\ if String.eqb message ""
           then View.errorBanner (Home_AnalysisResults st') = None
                /\ View.placeholder (Home_AnalysisResults st')
                   = Some "Upload and analyze Python code to see security assessment results here."
           else View.errorBanner (Home_AnalysisResults st') = Some message
                /\ View.placeholder (Home_AnalysisResults st') = None)
  /\ (forall response,
        net = fetch_resolved response -> Response.ok response = false ->
        View.errorBanner (Home_AnalysisResults st')
        = Some ("HTTP error! status: " +:+ pretty (Response.status response))).
Proof.
  intros Hc Hfail st'. subst st'.
  unfold handleAnalyzeCode. rewrite (truthy_true _ Hc). cbn [negb fst].
  assert (forall m,
    let st' := setIsAnalyzing false
                 (catchError m
                    (setPipelineSteps (fun _ => buildInitialSteps)
                       (setAnalysisResults None
                          (setError None (setIsAnalyzing true st))))) in
    pipelineSteps st' = buildInitialSteps
    /\ analysisResults st' = None
    /\ Home_PipelineProgress st' = None
    /\ View.results (Home_AnalysisResults st') = None
    /\ (exists message,
          error st' = Some message
          /\ if String.eqb message ""
             then View.errorBanner (Home_AnalysisResults st') = None
                  /\ View.placeholder (Home_AnalysisResults st')
                     = Some "Upload and analyze Python code to see security assessment results here."
             else View.errorBanner (Home_AnalysisResults st') = Some message
                  /\ View.placeholder (Home_AnalysisResults st') = None)) as Hclean.
  { intros m. cbv zeta. split; [reflexivity|]. split; [reflexivity|].
    split; [reflexivity|]. split; [reflexivity|].
    eexists. split; [reflexivity|].
    unfold Home_AnalysisResults, AnalysisResults, JS.truthy. cbn.
    destruct (String.eqb _ ""); cbn; auto. }
  destruct Hfail as [[err ->]|(response & -> & Hbad)].
  - destruct (Hclean err) as (H1 & H2 & H3 & H4 & H5).
    repeat (split; [assumption|]). intros response [=].
  - assert (
      (if negb (Response.ok response)
       then catchError
              (ErrorObject ("HTTP error! status: " +:+ pretty (Response.status response)))
              (setPipelineSteps (fun _ => buildInitialSteps)
                 (setAnalysisResults None (setError None (setIsAnalyzing true st))))
       else match Response.body response with
            | Some s =>
                readStream parseData clock s
                  (setPipelineSteps (fun _ => buildInitialSteps)
                     (setAnalysisResults None (setError None (setIsAnalyzing true st))))
            | None =>
                catchError (ErrorObject "No response body")
                  (setPipelineSteps (fun _ => buildInitialSteps)
                     (setAnalysisResults None (setError None (setIsAnalyzing true st))))
            end)
      = catchError
          (if negb (Response.ok response)
           then ErrorObject ("HTTP error! status: " +:+ pretty (Response.status response))
           else ErrorObject "No response body")
          (setPipelineSteps (fun _ => buildInitialSteps)
             (setAnalysisResults None (setError None (setIsAnalyzing true st))))) as ->.
    { destruct Hbad as [Hok|Hbody].
      - rewrite Hok. reflexivity.
      - rewrite Hbody. destruct (negb _); reflexivity. }
    destruct (Hclean (if negb (Response.ok response)
           then ErrorObject ("HTTP error! status: " +:+ pretty (Response.status response))
           else ErrorObject "No response body")) as (H1 & H2 & H3 & H4 & H5).
    repeat (split; [assumption|]).
    intros response' [= <-] Hok. rewrite Hok. reflexivity.
Qed.

Lemma handleAnalyzeCode_failed_request_leaves_a_clean_page_witness :
  codeContent codeLoaded ≠ ""
  /\ View.errorBanner
       (Home_AnalysisResults
          (handleAnalyzeCode "" sampleParse sampleClock
             (fetch_resolved (Response.mk false 503 None)) codeLoaded).1)
     = Some "HTTP error! status: 503".
Proof.
  assert (codeContent codeLoaded ≠ "") as H by discriminate.
  split; [exact H|].
  destruct (handleAnalyzeCode_failed_request_leaves_a_clean_page ""
              sampleParse sampleClock
              (fetch_resolved (Response.mk false 503 None)) codeLoaded H)
    as (_ & _ & _ & _ & _ & Hhttp).
  { right. eexists. split; [reflexivity|]. left. reflexivity. }
  exact (Hhttp _ eq_refl eq_refl).
Defined.

Lemma handleSSEEvents_clocked_snoc clock es0 e n st :
  handleSSEEvents (clocked clock n (es0 ++ [e])) st
  = handleSSEEvent (clock (n + length es0)%nat) e
      (handleSSEEvents (clocked clock n es0) st).
Proof.
  revert n st. induction es0 as [|e0 es0 IH]; intros n st.
  - simpl. rewrite Nat.add_0_r. reflexivity.
  - change (handleSSEEvents (clocked clock (S n) (es0 ++ [e]))
              (handleSSEEvent (clock n) e0 st)
            = handleSSEEvent (clock (n + S (length es0))%nat) e
                (handleSSEEvents (clocked clock (S n) es0)
                   (handleSSEEvent (clock n) e0 st))).
    rewrite IH. f_equal. f_equal. lia.
Qed.

(** X14. A successful run: when the response is ok and its body is one
    chunk of whole frames that ends without a failure, the page is reset,
    the events of the frames are handled in order and the running mark is
    cleared.  When the last event is [analysis_complete], its payload is
    the stored result, all six steps are [complete] and the pipeline panel
    is shown. *)
Theorem handleAnalyzeCode_handles_a_framed_stream
    url parseData clock status frames es st :
  codeContent st ≠ "" ->
  Forall2 (frameOf parseData) frames es ->
  let net :=
    fetch_resolved
      (Response.mk true status
         (Some (ReadableStream.mk [sseFrames frames] None))) in
  let st' := (handleAnalyzeCode url parseData clock net st).1 in
  st' = setIsAnalyzing false
          (handleSSEEvents (clocked clock 0 es)
             (setPipelineSteps (fun _ => buildInitialSteps)
                (setAnalysisResults None
                   (setError None (setIsAnalyzing true st)))))
  /\ (forall es0 data,
        es = es0 ++ [analysis_complete data] ->
        analysisResults st' = Some data
        /\ map PipelineStep.status (pipelineSteps st')
           = [complete; complete; complete; complete; complete; complete]
        /\ is_Some (Home_PipelineProgress st')).
Proof.
  intros Hc Hframes net st'.
  assert (st' = setIsAnalyzing false
          (handleSSEEvents (clocked clock 0 es)
             (setPipelineSteps (fun _ => buildInitialSteps)
                (setAnalysisResults None
                   (setError None (setIsAnalyzing true st)))))) as Hst.
  { subst st' net. unfold handleAnalyzeCode. rewrite (truthy_true _ Hc).
    cbn [negb fst Response.ok Response.body]. unfold readStream.
    cbn [ReadableStream.chunks ReadableStream.failure foldl].
    rewrite (handleChunk_sseFrames _ _ _ _ _ _ Hframes). reflexivity. }
  split; [exact Hst|].
  intros es0 data ->. rewrite Hst. clear Hst st' net Hframes.
  rewrite handleSSEEvents_clocked_snoc.
  set (st1 := handleSSEEvents (clocked clock 0 es0) _).
  assert (length (pipelineSteps st1) = 6%nat) as Hlen.
  { subst st1. rewrite handleSSEEvents_steps, length_map. reflexivity. }
  assert (map PipelineStep.status
            (pipelineSteps
               (setIsAnalyzing false
                  (handleSSEEvent (clock (0 + length es0)%nat)
                     (analysis_complete data) st1)))
          = [complete; complete; complete; complete; complete; complete]) as Hall.
  { change (pipelineSteps (setIsAnalyzing false ?s)) with (pipelineSteps s).
    rewrite analysis_complete_statuses, Hlen. reflexivity. }
  split; [reflexivity|]. split; [exact Hall|].
  unfold Home_PipelineProgress, PipelineProgress.
  change (isAnalyzing (setIsAnalyzing false ?s)) with false. cbn [negb andb].
  destruct (pipelineSteps (setIsAnalyzing false _)) as [|s l]; [discriminate Hall|].
  injection Hall as Hs _. cbn [forallb]. rewrite Hs. cbn. eauto.
Qed.

Lemma handleAnalyzeCode_handles_a_framed_stream_witness :
  codeContent codeLoaded ≠ ""
  /\ Forall2 (frameOf sampleParse) sampleFrames sampleEvents
  /\ analysisResults
       (handleAnalyzeCode "" sampleParse sampleClock
          (fetch_resolved
             (Response.mk true 200
                (Some (ReadableStream.mk [sseFrames sampleFrames] None))))
          codeLoaded).1
     = Some degradedResult.
Proof.
  assert (codeContent codeLoaded ≠ "") as H by discriminate.
  split; [exact H|]. split; [exact sampleFrames_frameOf|].
  destruct (handleAnalyzeCode_handles_a_framed_stream "" sampleParse sampleClock
              200 sampleFrames sampleEvents codeLoaded H sampleFrames_frameOf)
    as [_ Hlast].
  exact (proj1 (Hlast [agent_thought "Triage Agent" "Reading the upload."]
                  degradedResult eq_refl)).
Defined.

(** ** From a file to a request *)

(** X15. A file the picker takes becomes the code that is analysed: once
    it is read, the page holds its name and content with no result, no
    error and fresh steps, which is also the state [handleFileContentLoaded]
    gives for the same name and content; unless an analysis is running,
    the pipeline panel of an earlier run is hidden.  A following
    [handleAnalyzeCode] sends exactly the content; for an empty file it
    sends nothing and asks for a file instead. *)
Theorem uploaded_file_is_the_analysed_code
    url parseData clock net file content st :
  JS.endsWith ".py" (File.name file) = true ->
  let st1 := reader_onload content (handleFileUpload (Some file) st).1 in
  (handleFileUpload (Some file) st).2 = [readAsText file]
  /\ st1 = handleFileContentLoaded (File.name file) content st
  /\ fileName st1 = File.name file
  /\ codeContent st1 = content
  /\ analysisResults st1 = None
  /\ error st1 = None
  /\ pipelineSteps st1 = buildInitialSteps
  /\ Home_PipelineProgress st1
     = (if isAnalyzing st then Home_PipelineProgress st1 else None)
  /\ (handleAnalyzeCode url parseData clock net st1).2
     = if String.eqb content ""
       then [alert "Please upload a Python file first"]
       else [fetch (url +:+ "/api/analyze/stream") content].
Proof.
  intros Hpy. unfold handleFileUpload. rewrite Hpy. cbn [fst snd].
  repeat (split; [reflexivity|]).
  split.
  { unfold Home_PipelineProgress, PipelineProgress.
    cbn [isAnalyzing reader_onload setPipelineSteps setError setAnalysisResults
         setCodeContent setFileName].
    destruct (isAnalyzing st); reflexivity. }
  unfold handleAnalyzeCode, JS.truthy. cbn [codeContent reader_onload
    setPipelineSteps setError setAnalysisResults setCodeContent].
  destruct (String.eqb content ""); reflexivity.
Qed.

Lemma uploaded_file_is_the_analysed_code_witness :
  JS.endsWith ".py" (File.name (File.mk "app.py")) = true
  /\ (handleAnalyzeCode "" sampleParse sampleClock (fetch_rejected NotAnError)
        (reader_onload ""
           (handleFileUpload (Some (File.mk "app.py")) initialState).1)).2
     = [alert "Please upload a Python file first"].
Proof.
  split; [reflexivity|].
  exact (proj2 (proj2 (proj2 (proj2 (proj2 (proj2 (proj2 (proj2
           (uploaded_file_is_the_analysed_code "" sampleParse sampleClock
              (fetch_rejected NotAnError) (File.mk "app.py") "" initialState
              eq_refl))))))))).
Defined.

(** ** The running clock *)

(** X16. From one minute on the clock shows whole minutes and the seconds
    rounded to the nearest second, so in the last half second of a minute
    the seconds read 60: the text is then the minutes followed by
    ["m 60s"]. *)
Theorem tick_reads_sixty_seconds_before_the_minute_turns toFixed1 ms :
  60000 <= ms ->
  59500 <= ms mod 60000 ->
  tick toFixed1 ms = pretty (ms / 60000) +:+ "m 60s".
Proof.
  intros Hms Hlast. unfold tick, secondsToFixed0.
  destruct (Z.ltb_spec ms 1000); [lia|].
  destruct (Z.ltb_spec ms 60000); [lia|].
  pose proof (Z.mod_pos_bound ms 60000 ltac:(lia)) as Hb.
  assert ((ms mod 60000 + 500) / 1000 = 60) as ->.
  { symmetry. apply (Z.div_unique _ _ _ (ms mod 60000 + 500 - 60000)); lia. }
  reflexivity.
Qed.

Lemma tick_reads_sixty_seconds_before_the_minute_turns_witness :
  60000 <= 119600
  /\ 59500 <= 119600 mod 60000
  /\ tick (fun _ => "") 119600 = "1m 60s".
Proof.
  assert (60000 <= 119600) as H1 by lia.
  assert (59500 <= 119600 mod 60000) as H2 by (vm_compute; discriminate).
  split; [exact H1|]. split; [exact H2|].
  exact (tick_reads_sixty_seconds_before_the_minute_turns (fun _ => "") 119600 H1 H2).
Defined.

(** ** Partial lines and malformed data *)

Lemma split_singleton sep t u :
  JS.split sep t = [u] -> t = u /\ hasChar sep t = false.
Proof.
  revert u. induction t as [|a t IH]; intros u; cbn [JS.split hasChar].
  - intros [= <-]. auto.
  - destruct (Ascii.eqb a sep).
    + intros H. injection H as _ H. destruct (split_nonempty _ _ H).
    + pose proof (split_nonempty sep t) as Hn.
      destruct (JS.split sep t) as [|h [|h' tl]]; [contradiction| |discriminate].
      intros [= <-]. destruct (IH h eq_refl) as [-> Hh]. auto.
Qed.

Lemma split_last sep s :
  exists pre b,
    last (JS.split sep s) = Some b
    /\ s = pre +:+ b
    /\ hasChar sep b = false
    /\ ((pre = "" /\ JS.split sep s = [s])
        \/ exists p, pre = p +:+ String sep "").
Proof.
  induction s as [|c r (pre & b & Hlast & Heq & Hb & Hpre)].
  - exists "", "". repeat split; auto.
  - cbn [JS.split]. destruct (Ascii.eqb c sep) eqn:Hc.
    + apply Ascii.eqb_eq in Hc as ->.
      exists (String sep pre), b. split; [|split; [|split]].
      * destruct (JS.split sep r); [discriminate Hlast|exact Hlast].
      * rewrite Heq at 1. reflexivity.
      * exact Hb.
      * right. destruct Hpre as [[-> _]|[p ->]]; [exists ""|exists (String sep p)];
          reflexivity.
    + destruct Hpre as [[-> Hone]|[p ->]].
      * rewrite Hone. exists "", (String c r). split; [reflexivity|].
        split; [reflexivity|]. split; [|left; auto].
        cbn [hasChar]. rewrite Hc.
        destruct (split_singleton _ _ _ Hone) as [_ Hr]. exact Hr.
      * exists (String c (p +:+ String sep "")), b. split; [|split; [|split]].
        -- destruct (JS.split sep r) as [|x [|y l]] eqn:E;
             [discriminate Hlast| |exact Hlast].
           exfalso. destruct (split_singleton _ _ _ E) as [_ Hr].
           rewrite Heq, !hasChar_append in Hr. cbn [hasChar] in Hr.
           rewrite Ascii.eqb_refl, !orb_true_r in Hr. discriminate Hr.
        -- rewrite Heq at 1. reflexivity.
        -- exact Hb.
        -- right. exists (String c p). reflexivity.
Qed.

(** X17. No partial line is lost or handled early: after a chunk the
    buffer is exactly the text that follows the last line feed of the old
    buffer and the chunk, all of it when there is no line feed, and it
    holds no line feed itself. *)
Theorem handleChunk_keeps_the_unfinished_line parseData clock buffer st n chunk :
  exists pre,
    buffer +:+ chunk = pre +:+ (handleChunk parseData clock (buffer, st, n) chunk).1.1
    /\ hasChar "010" (handleChunk parseData clock (buffer, st, n) chunk).1.1 = false
    /\ ((pre = ""
         /\ handleChunk parseData clock (buffer, st, n) chunk
            = (buffer +:+ chunk, st, n))
        \/ exists p, pre = p +:+ nl).
Proof.
  destruct (split_last "010" (buffer +:+ chunk))
    as (pre & b & Hlast & Heq & Hb & Hpre).
  assert ((handleChunk parseData clock (buffer, st, n) chunk).1.1 = b) as Hbuf.
  { unfold handleChunk. rewrite Hlast.
    destruct (foldl _ _ _) as [[ev st'] n']. reflexivity. }
  exists pre. rewrite Hbuf. split; [exact Heq|]. split; [exact Hb|].
  destruct Hpre as [[-> Hone]|[p ->]]; [left|right; exists p; reflexivity].
  split; [reflexivity|].
  unfold handleChunk. rewrite Hone. reflexivity.
Qed.

(** X18. Malformed data is skipped: a frame whose data does not parse, or
    whose event type is blank, changes nothing, and the text after it is
    handled as if the frame were not there. *)
Theorem handleChunk_skips_a_frame_that_does_not_parse
    parseData clock evType data rest st n :
  hasChar "010" evType = false ->
  hasChar "010" data = false ->
  JS.trim evType = "" \/ parseData (JS.trim evType) data = None ->
  handleChunk parseData clock ("", st, n) (sseFrame evType data +:+ rest)
  = handleChunk parseData clock ("", st, n) rest.
Proof.
  intros Ht Hd Hbad. unfold handleChunk.
  change ("" +:+ (sseFrame evType data +:+ rest)) with (sseFrame evType data +:+ rest).
  change ("" +:+ rest) with rest.
  rewrite (sseFrame_lines _ _ _ Ht Hd).
  pose proof (split_nonempty "010" rest) as Hnon.
  change (("event: " +:+ evType) :: ("data: " +:+ data) :: "" :: JS.split "010" rest)
    with ([("event: " +:+ evType); ("data: " +:+ data); ""] ++ JS.split "010" rest).
  rewrite removelast_app_nonempty, last_app_nonempty by exact Hnon.
  rewrite foldl_app. cbn [foldl]. rewrite handleLine_event.
  assert (handleLine parseData clock (JS.trim evType, st, n) ("data: " +:+ data)
          = ("", st, n)) as ->.
  { destruct (String.eqb_spec (JS.trim evType) "") as [E|E].
    - rewrite E. apply handleLine_without_event_type. reflexivity.
    - rewrite (handleLine_data _ _ _ _ _ _ (truthy_true _ E)).
      destruct Hbad as [Hbad|Hbad]; [contradiction|]. rewrite Hbad. reflexivity. }
  reflexivity.
Qed.

Lemma handleChunk_skips_a_frame_that_does_not_parse_witness :
  hasChar "010" "handoff" = false
  /\ hasChar "010" "{" = false
  /\ sampleParse (JS.trim "handoff") "{" = None
  /\ handleChunk sampleParse sampleClock ("", initialState, 0%nat)
       (sseFrame "handoff" "{" +:+ sseFrames sampleFrames)
     = handleChunk sampleParse sampleClock ("", initialState, 0%nat)
         (sseFrames sampleFrames).
Proof.
  split; [reflexivity|]. split; [reflexivity|]. split; [reflexivity|].
  apply (handleChunk_skips_a_frame_that_does_not_parse sampleParse sampleClock
           "handoff" "{" (sseFrames sampleFrames) initialState 0%nat);
    [reflexivity|reflexivity|right; reflexivity].
Defined.

(** ** The example menu *)

(** X19. Every option of the example menu loads its own sample: choosing
    the id of a sample puts that sample's file name and content on the
    page, as loading a file would.  Each sample has a name the file picker
    would take and a non-empty content, so it can be analysed at once.  The
    empty id and an id of no sample change nothing. *)
Theorem Home_selectExample_loads_the_chosen_sample :
  (forall snippet st,
     snippet ∈ SAMPLE_SNIPPETS ->
     Home_selectExample (SampleSnippet.id snippet) st
     = handleFileContentLoaded (SampleSnippet.fileName snippet)
         (SampleSnippet.content snippet) st
     /\ JS.endsWith ".py" (SampleSnippet.fileName snippet) = true
     /\ SampleSnippet.content snippet ≠ "")
  /\ (forall id st,
        id ∉ map SampleSnippet.id SAMPLE_SNIPPETS ->
        Home_selectExample id st = st).
Proof.
  split.
  - intros snippet st Hin. unfold SAMPLE_SNIPPETS in Hin.
    repeat (apply elem_of_cons in Hin as [->|Hin]);
      try (split; [reflexivity|split; [reflexivity|discriminate]]).
    apply elem_of_nil in Hin. contradiction.
  - intros id st Hout. unfold Home_selectExample, selectExample.
    destruct (negb (JS.truthy id)); [reflexivity|].
    destruct (List.find _ SAMPLE_SNIPPETS) as [snippet|] eqn:E; [|reflexivity].
    exfalso. apply find_some in E as [Hin Hid]. apply String.eqb_eq in Hid.
    apply Hout. rewrite <- Hid. apply list_elem_of_In, in_map, Hin.
Qed.

Lemma Home_selectExample_loads_the_chosen_sample_witness :
  ("no-such-sample" ∉ map SampleSnippet.id SAMPLE_SNIPPETS)
  /\ Home_selectExample "no-such-sample" triageThinking = triageThinking.
Proof.
  assert ("no-such-sample" ∉ map SampleSnippet.id SAMPLE_SNIPPETS) as H
    by (simpl; not_listed).
  split; [exact H|].
  exact (proj2 Home_selectExample_loads_the_chosen_sample
           "no-such-sample" triageThinking H).
Defined.

(** ** An analysis as a history *)

Lemma handleSSEEvents_app es1 es2 st :
  handleSSEEvents (es1 ++ es2) st = handleSSEEvents es2 (handleSSEEvents es1 st).
Proof.
  revert st. induction es1 as [|[env e] es1 IH]; intros st; [reflexivity|].
  simpl. apply IH.
Qed.

Lemma readStream_is_events parseData clock s st :
  exists es,
    readStream parseData clock s st
    = match ReadableStream.failure s with
      | Some err => catchError err (handleSSEEvents es st)
      | None => handleSSEEvents es st
      end.
Proof.
  unfold readStream.
  assert (exists es,
            (foldl (handleChunk parseData clock) ("", st, 0%nat)
               (ReadableStream.chunks s)).1.2 = handleSSEEvents es st) as [es Hes].
  { apply (foldl_invariant (fun a => exists es, a.1.2 = handleSSEEvents es st));
      [|exists []; reflexivity].
    intros [[buffer st0] n] chunk [es0 H0]. unfold handleChunk. cbn [fst snd] in *.
    assert (exists es,
              (foldl (handleLine parseData clock) ("", st0, n)
                 (removelast (JS.split "010" (buffer +:+ chunk)))).1.2
              = handleSSEEvents es st) as [es1 H1].
    { apply (foldl_invariant (fun a => exists es, a.1.2 = handleSSEEvents es st));
        [|exists es0; exact H0].
      intros [[ev st1] n1] line [es1 H1]. unfold handleLine. cbn [fst snd] in *.
      destruct (JS.startsWith "event: " line); [exists es1; exact H1|].
      destruct (JS.startsWith "data: " line && JS.truthy ev); [|exists es1; exact H1].
      destruct (parseData ev _) as [e|]; [|exists es1; exact H1].
      exists (es1 ++ [(clock n1, e)]). cbn [fst snd].
      rewrite handleSSEEvents_app, <- H1. reflexivity. }
    destruct (foldl _ _ _) as [[ev' st'] n']. exists es1. exact H1. }
  destruct (foldl _ _ _) as [[b' st'] n']. cbn [fst snd] in Hes. subst st'.
  exists es. reflexivity.
Qed.

(** [handleAnalyzeCode] taken as one step is a history of its parts: its
    start, the events of the stream in order, and its end. *)
Lemma handleAnalyzeCode_is_begin_events_end url parseData clock net st :
  codeContent st ≠ "" ->
  exists es err,
    (handleAnalyzeCode url parseData clock net st).1
    = handleAnalyzeCode_end err (handleSSEEvents es (handleAnalyzeCode_begin st)).
Proof.
  intros Hc. unfold handleAnalyzeCode, handleAnalyzeCode_begin.
  rewrite (truthy_true _ Hc). cbn [negb fst].
  destruct net as [err|response].
  - exists [], (Some err). reflexivity.
  - destruct (negb (Response.ok response)).
    + exists [], (Some (ErrorObject
                          ("HTTP error! status: " +:+ pretty (Response.status response)))).
      reflexivity.
    + destruct (Response.body response) as [s|].
      * destruct (readStream_is_events parseData clock s
                    (setPipelineSteps (fun _ => buildInitialSteps)
                       (setAnalysisResults None
                          (setError None (setIsAnalyzing true st))))) as [es Hes].
        exists es, (ReadableStream.failure s). rewrite Hes.
        unfold handleAnalyzeCode_end. destruct (ReadableStream.failure s); reflexivity.
      * exists [], (Some (ErrorObject "No response body")). reflexivity.
Qed.
